(** * Movie-ratings analysis pipeline: filters, aggregation, top-N selection

    A shallow embedding of [src/filters.py], [src/utils/utils.py] and
    [src/utils/inisight.py].

    Conventions of the embedding.
    - A [pandas.DataFrame] is the list of its rows, in row order; each table
      has its own record type (rating, movie and tag records, the merged
      summary).  Index labels are not represented: nothing in the code reads
      them.
    - A [pandas.Series] is the list of its values; the vectorised operators
      ([>=], [<=], [&], [==], arithmetic with a scalar) are written out
      element by element and [df.loc[mask]] keeps the rows whose mask entry
      is [True].
    - Timestamps and years are integers ([Z]); ratings are exact rationals
      ([Q]), so a mean is the exact quotient of the sum by the count.
    - A Python exception is the [Raise] outcome of the [result] monad.  A call
      site that passes fewer positional arguments than the callee requires
      raises [TypeError] before the callee's body runs.
    - [sort_values] with the default [kind="quicksort"] is an algorithm that
      pandas documents as a sort but not as a stable one; it is the
      [SortKind] interface below. *)

From Stdlib Require Import List ZArith QArith String Ascii Bool Lia.
From Stdlib Require Import Permutation Sorted.
Import ListNotations.
Open Scope Z_scope.

Set Implicit Arguments.

(* ================================================================== *)
(** * Python outcomes *)

Inductive exn : Type :=
| TypeError (callee : string) (missing : list string)
    (* callee() missing required positional argument(s) *)
| ValueError (msg : string)
| PatternOutsideFragment (pat : string).
    (* the pattern uses regular-expression syntax beyond the fragment
       interpreted by [re_compile] below *)

Inductive result (A : Type) : Type :=
| Ok (a : A)
| Raise (e : exn).

Arguments Ok {A} a.
Arguments Raise {A} e.

Definition bind {A B : Type} (m : result A) (k : A -> result B) : result B :=
  match m with
  | Ok a => k a
  | Raise e => Raise e
  end.

Notation "x <- m ;; k" := (bind m (fun x => k))
  (at level 61, m at next level, right associativity).

(** [Series.apply(f)]: [f] on every value, first to last; the first exception
    propagates.  On an empty series [f] is not called. *)
Fixpoint series_apply {A B : Type} (f : A -> result B) (s : list A)
  : result (list B) :=
  match s with
  | [] => Ok []
  | x :: s' =>
      y <- f x ;;
      ys <- series_apply f s' ;;
      Ok (y :: ys)
  end.

(** ** Binding of positional arguments

    The positional arguments handed to a function of two required
    parameters.  When only one is supplied its type is irrelevant: the call
    fails while binding. *)
Inductive actuals (A B : Type) : Type :=
| Positional1 : forall T : Type, T -> actuals A B
| Positional2 : A -> B -> actuals A B.

Arguments Positional1 {A B T} _.
Arguments Positional2 {A B} _ _.

Definition call2 {A B C : Type} (callee : string) (param1 param2 : string)
  (f : A -> B -> result C) (args : actuals A B) : result C :=
  match args with
  | Positional2 a b => f a b
  | Positional1 _ => Raise (TypeError callee [param2])
  end.

(* ================================================================== *)
(** * Data model *)

(** Tables that carry a [movieId] column. *)
Class MovieIdCol (R : Type) : Type := movieId : R -> Z.

Record Rating : Type := mkRating {
  userId : Z;
  rating_movieId : Z;
  rating : Q;
  datetime_rating : Z
}.

(** A movie row; [G] is the content of the [genres] cell: a list of genre
    strings in the catalog, one genre (or NaN) after [explode]. *)
Record MovieRow (G : Type) : Type := mkMovie {
  movie_movieId : Z;
  title : string;
  movie_year : Z;
  genres : G
}.

Definition Movie : Type := MovieRow (list string).
Definition MovieGenre : Type := MovieRow (option string).

Record Tag : Type := mkTag {
  tag_movieId : Z;
  tag : string
}.

(** A row of the frame [aggregate_data] returns: the columns of the movie
    frame, then [total_views], [average_rating] and [tags]. *)
Record Summary (M : Type) : Type := mkSummary {
  movie : M;
  total_views : Z;
  average_rating : Q;
  tags : list string
}.

#[export] Instance Rating_movieId : MovieIdCol Rating := rating_movieId.
#[export] Instance MovieRow_movieId (G : Type) : MovieIdCol (MovieRow G) :=
  @movie_movieId G.
#[export] Instance Tag_movieId : MovieIdCol Tag := tag_movieId.
#[export] Instance Summary_movieId (M : Type) `{MovieIdCol M}
  : MovieIdCol (Summary M) := fun r => movieId (movie r).

(* ================================================================== *)
(** * The pandas operations the code uses *)

(** [df.column] *)
Definition col {R A : Type} (f : R -> A) (df : list R) : list A := map f df.

(** [series >= x], [series <= x], [series == x] *)
Definition ge_scalar (s : list Z) (x : Z) : list bool :=
  map (fun v => x <=? v) s.
Definition le_scalar (s : list Z) (x : Z) : list bool :=
  map (fun v => v <=? x) s.
Definition eq_scalar (s : list Z) (x : Z) : list bool :=
  map (fun v => v =? x) s.

(** [mask1 & mask2] *)
Fixpoint and_mask (a b : list bool) : list bool :=
  match a, b with
  | x :: a', y :: b' => (x && y)%bool :: and_mask a' b'
  | _, _ => []
  end.

(** [df.loc[mask]] and [df[mask]] for a boolean mask over the rows of [df] *)
Fixpoint loc {R : Type} (df : list R) (mask : list bool) : list R :=
  match df, mask with
  | r :: df', b :: mask' => if b then r :: loc df' mask' else loc df' mask'
  | _, _ => []
  end.

(** [df.head(n)]: the first [n] rows, and for negative [n] all rows but the
    last [-n]. *)
Definition head {R : Type} (df : list R) (n : Z) : list R :=
  if 0 <=? n then firstn (Z.to_nat n) df
  else firstn (List.length df - Z.to_nat (- n)) df.

(** ** [sort_values(by=..., ascending=False)]

    The default [kind] is "quicksort".  Its contract: the rows are permuted
    and the key column is non-increasing.  The order among rows of equal key
    is the algorithm's own business. *)
Definition descending {R : Type} (key : R -> Z) : list R -> Prop :=
  StronglySorted (fun a b => key b <= key a).

Class SortKind : Type := {
  sort_values_desc : forall R : Type, (R -> Z) -> list R -> list R;
  sort_values_perm : forall (R : Type) (key : R -> Z) (df : list R),
      Permutation (sort_values_desc key df) df;
  sort_values_sorted : forall (R : Type) (key : R -> Z) (df : list R),
      descending key (sort_values_desc key df)
}.

Arguments sort_values_desc {SortKind R} key df.

(** A kind is stable when rows of equal key keep their input order. *)
Definition stable (K : SortKind) : Prop :=
  forall (R : Type) (key : R -> Z) (df : list R) (k : Z),
    filter (fun r => key r =? k) (sort_values_desc key df)
    = filter (fun r => key r =? k) df.

(** Two concrete kinds.  [insert_desc] puts a row in front of the first row
    whose key is not larger, so [stable_sort_desc] keeps ties in input
    order; [reversing_sort_desc] is a correct descending sort that returns
    ties in reverse input order. *)
Fixpoint insert_desc {R : Type} (key : R -> Z) (x : R) (l : list R) : list R :=
  match l with
  | [] => [x]
  | y :: l' => if key y <=? key x then x :: y :: l'
               else y :: insert_desc key x l'
  end.

Fixpoint stable_sort_desc {R : Type} (key : R -> Z) (l : list R) : list R :=
  match l with
  | [] => []
  | x :: l' => insert_desc key x (stable_sort_desc key l')
  end.

Definition reversing_sort_desc {R : Type} (key : R -> Z) (l : list R)
  : list R :=
  stable_sort_desc key (rev l).

(** ** [explode], [str.contains] and masks with missing values *)

(** [df.explode("genres")]: one row per element of the list in [genres];
    a row whose list is empty is kept once, with NaN ([None]). *)
Definition explode_row (m : Movie) : list MovieGenre :=
  match genres m with
  | [] => [mkMovie (movie_movieId m) (title m) (movie_year m) None]
  | gs => map (fun g => mkMovie (movie_movieId m) (title m) (movie_year m)
                                (Some g)) gs
  end.

Definition explode (df : list Movie) : list MovieGenre :=
  flat_map explode_row df.

(** The fragment of Python's regular expressions interpreted here: a
    sequence of literal characters and [.] (any character but a newline).
    A pattern holding another special character is outside the fragment. *)
Inductive atom : Type :=
| Lit (c : ascii)
| AnyChar.

Definition is_special (c : ascii) : bool :=
  existsb (Ascii.eqb c)
    ["."; "^"; "$"; "*"; "+"; "?"; "{"; "}"; "["; "]"; "\"; "|"; "("; ")"]%char.

Fixpoint re_compile (pat : string) : option (list atom) :=
  match pat with
  | EmptyString => Some []
  | String c pat' =>
      match re_compile pat' with
      | None => None
      | Some re =>
          if Ascii.eqb c "."%char then Some (AnyChar :: re)
          else if is_special c then None
          else Some (Lit c :: re)
      end
  end.

(** The compiled form of a pattern of literal characters only. *)
Fixpoint literals (g : string) : list atom :=
  match g with
  | EmptyString => []
  | String c g' => Lit c :: literals g'
  end.

Definition atom_matches (a : atom) (c : ascii) : bool :=
  match a with
  | Lit c' => Ascii.eqb c' c
  | AnyChar => negb (Ascii.eqb c (ascii_of_nat 10))
  end.

Fixpoint match_here (re : list atom) (s : string) : bool :=
  match re with
  | [] => true
  | a :: re' =>
      match s with
      | EmptyString => false
      | String c s' => (atom_matches a c && match_here re' s')%bool
      end
  end.

(** [re.search]: a match starting at some position of [s]. *)
Fixpoint re_search (re : list atom) (s : string) : bool :=
  (match_here re s
   || match s with
      | EmptyString => false
      | String _ s' => re_search re s'
      end)%bool.

(** [series.str.contains(pat)] with the default [regex=True]: the pattern is
    compiled, then searched in every string; a missing value stays missing. *)
Definition str_contains (s : list (option string)) (pat : string)
  : result (list (option bool)) :=
  match re_compile pat with
  | None => Raise (PatternOutsideFragment pat)
  | Some re => Ok (map (option_map (re_search re)) s)
  end.

(** A mask is usable for indexing only when no entry is missing. *)
Fixpoint bool_mask (mask : list (option bool)) : option (list bool) :=
  match mask with
  | [] => Some []
  | None :: _ => None
  | Some b :: mask' => option_map (cons b) (bool_mask mask')
  end.

(** [df[mask]] where [mask] may hold missing values. *)
Definition getitem_mask {R : Type} (df : list R) (mask : list (option bool))
  : result (list R) :=
  match bool_mask mask with
  | None =>
      Raise (ValueError
               "Cannot mask with non-boolean array containing NA / NaN values")
  | Some m => Ok (loc df m)
  end.

(** ** [groupby], [merge] *)

(** The group keys of [df.groupby("movieId")]: the distinct values of the
    column, in increasing order. *)
Fixpoint insert_key (k : Z) (l : list Z) : list Z :=
  match l with
  | [] => [k]
  | y :: l' => if k <=? y then k :: y :: l' else y :: insert_key k l'
  end.

Definition sort_keys (l : list Z) : list Z := fold_right insert_key [] l.

Definition group_keys {R : Type} `{MovieIdCol R} (df : list R) : list Z :=
  sort_keys (nodup Z.eq_dec (col movieId df)).

(** The rows of one group. *)
Definition group {R : Type} `{MovieIdCol R} (df : list R) (k : Z) : list R :=
  filter (fun r => movieId r =? k) df.

(** [df.groupby("movieId")[c].count()] and [.mean()], one entry per key. *)
Definition groupby_count {R : Type} `{MovieIdCol R} (df : list R)
  : list (Z * Z) :=
  map (fun k => (k, Z.of_nat (List.length (group df k)))) (group_keys df).

(** The mean is the exact quotient of the sum by the count.  pandas computes
    it in float64 and rounds: what is proved below of an average holds of the
    exact mean, and nothing here bounds the rounding. *)
Definition Qsum (l : list Q) : Q := fold_right Qplus (0#1)%Q l.

Definition mean (l : list Q) : Q :=
  (Qsum l / inject_Z (Z.of_nat (List.length l)))%Q.

Definition groupby_mean {R : Type} `{MovieIdCol R} (value : R -> Q)
  (df : list R) : list (Z * Q) :=
  map (fun k => (k, mean (col value (group df k)))) (group_keys df).

(** [pd.merge(left, right, on="movieId")] with the default [how="inner"]:
    every pair of a left row and a right entry of equal key, in the order of
    the left rows. *)
Definition merge {L V : Type} `{MovieIdCol L} (left : list L)
  (right : list (Z * V)) : list (L * V) :=
  flat_map
    (fun l => map (fun kv => (l, snd kv))
                  (filter (fun kv => fst kv =? movieId l) right))
    left.

(** The key column of a merged row is the one of its left part. *)
#[export] Instance Merged_movieId (L V : Type) `{MovieIdCol L}
  : MovieIdCol (L * V) := fun p => movieId (fst p).

(** [frame["tags"] = column]: the merged rows with their tag lists. *)
Definition assign_tags {M : Type} (rows : list (M * Z * Q))
  (column : list (list string)) : list (Summary M) :=
  map (fun p => mkSummary (fst (fst (fst p))) (snd (fst (fst p)))
                          (snd (fst p)) (snd p))
      (combine rows column).

(** What [generate_plots] hands to matplotlib and wordcloud.  The drawing
    itself, the colour lookup and the fixed legend are outside the
    embedding. *)
Record Plots (G : Type) : Type := mkPlots {
  selected : list (Summary (MovieRow G));  (* [movies_df] after selection *)
  normalized_ratings : list Q;             (* argument of the colour map *)
  bars : list (string * Z);                (* [barh]: title, total_views *)
  bar_labels : list Q;                     (* the rating written in bar i *)
  scatter : list (Q * Z);                  (* average_rating, total_views *)
  cloud_text : string;                     (* input of [WordCloud.generate] *)
  plot_title : string * Z * Z              (* genre, top, decade *)
}.

(** [series - x], [series / x] *)
Definition sub_scalar (s : list Q) (x : Q) : list Q :=
  map (fun v => (v - x)%Q) s.
Definition div_scalar (s : list Q) (x : Q) : list Q :=
  map (fun v => (v / x)%Q) s.

(* ================================================================== *)
(** * src/filters.py *)

Module Filters.

Definition filter_time_interval `{SortKind} (df : list Rating)
  (start_date end_date : Z) : list Rating :=
  sort_values_desc datetime_rating
    (loc df (and_mask (ge_scalar (col datetime_rating df) start_date)
                      (le_scalar (col datetime_rating df) end_date))).

Definition filter_production_date {G : Type} (df : list (MovieRow G))
  (prod_start prod_end : Z) : list (MovieRow G) :=
  loc df (and_mask (ge_scalar (col (@movie_year G) df) prod_start)
                   (le_scalar (col (@movie_year G) df) prod_end)).

End Filters.

(* ================================================================== *)
(** * src/utils/utils.py *)

Module Utils.

Definition filter_time_interval `{SortKind} (df : list Rating)
  (start_date end_date : Z) : list Rating :=
  sort_values_desc datetime_rating
    (loc df (and_mask (ge_scalar (col datetime_rating df) start_date)
                      (le_scalar (col datetime_rating df) end_date))).

Definition filter_production_date {G : Type} (df : list (MovieRow G))
  (prod_start prod_end : Z) : list (MovieRow G) :=
  loc df (and_mask (ge_scalar (col (@movie_year G) df) prod_start)
                   (le_scalar (col (@movie_year G) df) prod_end)).

Definition get_tags_per_movieId (movieId0 : Z) (tags_df : list Tag)
  : list string :=
  col tag (loc tags_df (eq_scalar (col movieId tags_df) movieId0)).

(** The frame after the two merges, before the [tags] column is computed. *)
Definition merged {M : Type} `{MovieIdCol M} (df : list Rating)
  (movies_df : list M) : list (M * Z * Q) :=
  let count_views := groupby_count df in
  let rating_means := groupby_mean rating df in
  let movies_df_copy := merge movies_df count_views in
  merge movies_df_copy rating_means.

(** [get_tags_per_movieId] has the parameters [movieId] and [tags_df]; the
    lambda of [aggregate_data] calls it with [x] alone. *)
Definition aggregate_data {M : Type} `{MovieIdCol M} (df : list Rating)
  (movies_df : list M) : result (list (Summary M)) :=
  let movies_df_copy := merged df movies_df in
  column <- series_apply
              (fun x : Z =>
                 call2 "get_tags_per_movieId" "movieId" "tags_df"
                       (fun a b => Ok (get_tags_per_movieId a b))
                       (Positional1 x))
              (col movieId movies_df_copy) ;;
  Ok (assign_tags movies_df_copy column).

Definition default_top : Z := 20.

Definition generate_plots `{SortKind} {G : Type}
  (movies_df : list (Summary (MovieRow G))) (genre : string) (decade : Z)
  (top : Z) : Plots G :=
  let movies_df := head (sort_values_desc (@total_views _) movies_df) top in
  let ratings := col (@average_rating _) movies_df in
  let normalized_ratings := div_scalar (sub_scalar ratings (1#1)%Q) (4#1)%Q in
  let resorted := sort_values_desc (@total_views _) movies_df in
  mkPlots movies_df
          normalized_ratings
          (map (fun r => (title (movie r), total_views r)) movies_df)
          ratings
          (map (fun r => (average_rating r, total_views r)) resorted)
          (String.concat " " (List.concat (col (@tags _) movies_df)))
          (genre, top, decade).

(** Lines 182-188 of [find_closest_match_ut]: the decade, the production
    filter, [explode] and the genre mask. *)
Definition closest_match_filter (genre : string) (prod_year : Z)
  (dataset : list Movie) : result (list MovieGenre) :=
  let decade := prod_year / 10 * 10 in
  let filter_df := filter_production_date dataset decade (decade + 9) in
  let filter_df := explode filter_df in
  mask <- str_contains (col (@genres _) filter_df) genre ;;
  getitem_mask filter_df mask.

(** [aggregate_data] has the parameters [df] and [movies_df]; it is called
    with [filter_df] alone. *)
Definition find_closest_match_ut `{SortKind} (genre : string) (prod_year : Z)
  (dataset : list Movie)
  : result (list MovieGenre * list (Summary MovieGenre)) :=
  let decade := prod_year / 10 * 10 in
  let filter_df := filter_production_date dataset decade (decade + 9) in
  let filter_df := explode filter_df in
  mask <- str_contains (col (@genres _) filter_df) genre ;;
  filter_df <- getitem_mask filter_df mask ;;
  aggregate_df <- call2 "aggregate_data" "df" "movies_df"
                        (@aggregate_data MovieGenre _)
                        (Positional1 filter_df) ;;
  let _ := generate_plots aggregate_df genre decade default_top in
  Ok (filter_df, aggregate_df).

End Utils.

(* ================================================================== *)
(** * src/utils/inisight.py *)

Module Inisight.

(** [from utils import filter_production_date, aggregate_data,
    generate_plots] *)
Definition filter_production_date {G : Type} := @Utils.filter_production_date G.
Definition aggregate_data {M : Type} `{MovieIdCol M} :=
  @Utils.aggregate_data M _.
Definition generate_plots `{SortKind} {G : Type} := @Utils.generate_plots _ G.

Definition find_closest_match_ut `{SortKind} (genre : string) (prod_year : Z)
  (dataset : list Movie)
  : result (list MovieGenre * list (Summary MovieGenre)) :=
  let decade := prod_year / 10 * 10 in
  let filter_df := filter_production_date dataset decade (decade + 9) in
  let filter_df := explode filter_df in
  mask <- str_contains (col (@genres _) filter_df) genre ;;
  filter_df <- getitem_mask filter_df mask ;;
  aggregate_df <- call2 "aggregate_data" "df" "movies_df"
                        (@aggregate_data MovieGenre _)
                        (Positional1 filter_df) ;;
  let _ := generate_plots aggregate_df genre decade Utils.default_top in
  Ok (filter_df, aggregate_df).

End Inisight.

(* ================================================================== *)
(** * Concrete sort kinds *)

(** Insertion from the right: stable. *)
Definition stable_kind : SortKind.
Proof.
  assert (Hperm : forall (R : Type) (key : R -> Z) (x : R) (l : list R),
             Permutation (insert_desc key x l) (x :: l)).
  { intros R key x l; induction l as [|y l IH]; simpl.
    - apply Permutation_refl.
    - destruct (key y <=? key x).
      + apply Permutation_refl.
      + eapply perm_trans; [apply perm_skip, IH | apply perm_swap]. }
  refine {| sort_values_desc := @stable_sort_desc |}.
  - intros R key df; induction df as [|x l IH]; simpl.
    + constructor.
    + eapply perm_trans; [apply Hperm | apply perm_skip, IH].
  - intros R key df; unfold descending; induction df as [|x l IH]; simpl.
    + constructor.
    + revert IH; generalize (stable_sort_desc key l); intros s Hs.
      induction Hs as [|y s Hs IHs Hall]; simpl.
      * repeat constructor.
      * destruct (key y <=? key x) eqn:E.
        -- apply Z.leb_le in E. constructor.
           ++ constructor; assumption.
           ++ constructor; [assumption|].
              eapply Forall_impl; [|exact Hall]. simpl; intros; lia.
        -- apply Z.leb_gt in E. constructor; [assumption|].
           eapply Permutation_Forall;
             [apply Permutation_sym, Hperm|].
           constructor; [lia | assumption].
Defined.

(** The same insertion on the reversed frame: ties come out reversed. *)
Definition reversing_kind : SortKind.
Proof.
  refine {| sort_values_desc := @reversing_sort_desc |}.
  - intros R key df; unfold reversing_sort_desc.
    eapply perm_trans.
    + apply (@sort_values_perm stable_kind).
    + apply Permutation_sym, Permutation_rev.
  - intros R key df; unfold reversing_sort_desc.
    apply (@sort_values_sorted stable_kind).
Defined.

(* ================================================================== *)
(** * The properties claimed of the pipeline, in the words of the
      specification *)

(** The closed interval [lo, hi]. *)
Definition in_interval (lo hi x : Z) : bool := ((lo <=? x) && (x <=? hi))%bool.

(** [g] occurs in [s] as a substring. *)
Definition substring_of (g s : string) : Prop :=
  exists pre post : string, s = (pre ++ g ++ post)%string.

Fixpoint substringb (g s : string) : bool :=
  (String.prefix g s
   || match s with
      | EmptyString => false
      | String _ s' => substringb g s'
      end)%bool.

(** [g] holds no character that is special in a regular expression. *)
Fixpoint plain_text (g : string) : bool :=
  match g with
  | EmptyString => true
  | String c g' => (negb (is_special c) && plain_text g')%bool
  end.

(** "The catalog rows (expanded to one row per genre) whose movie_year lies
    in the closed interval and whose genre field contains g as a
    substring." *)
Definition one_row_per_genre (m : Movie) : list MovieGenre :=
  map (fun g => mkMovie (movie_movieId m) (title m) (movie_year m) (Some g))
      (genres m).

Definition genre_contains (g : string) (r : MovieGenre) : bool :=
  match genres r with
  | Some s => substringb g s
  | None => false
  end.

Definition spec_filtered_subset (g : string) (y : Z) (catalog : list Movie)
  : list MovieGenre :=
  filter (fun r => (in_interval (y / 10 * 10) (y / 10 * 10 + 9) (movie_year r)
                    && genre_contains g r)%bool)
         (flat_map one_row_per_genre catalog).

(** [l1] is an initial segment of [l2]. *)
Definition prefix_of {A : Type} (l1 l2 : list A) : Prop :=
  exists rest : list A, l2 = l1 ++ rest.

(** What the specification says of [filter_time_interval]. *)
Definition time_interval_spec (df : list Rating) (s e : Z)
  (out : list Rating) : Prop :=
  Permutation out (filter (fun r => in_interval s e (datetime_rating r)) df)
  /\ (forall r, In r out <-> In r df /\ s <= datetime_rating r <= e)
  /\ descending datetime_rating out
  /\ ((forall r, In r df -> ~ (s <= datetime_rating r <= e)) -> out = []).

(** What the specification says of [filter_production_date]. *)
Definition production_date_spec {G : Type} (df : list (MovieRow G))
  (p1 p2 : Z) (out : list (MovieRow G)) : Prop :=
  out = filter (fun m => in_interval p1 p2 (movie_year m)) df
  /\ (forall m, In m out <-> In m df /\ p1 <= movie_year m <= p2)
  /\ (p2 < p1 -> out = []).

(** What the specification says of the top-N selection: min(top, available)
    movies, by descending [total_views], ties in input order. *)
Definition top_n_spec {G : Type}
  (summary : list (Summary (MovieRow G))) (top : Z)
  (sel : list (Summary (MovieRow G))) : Prop :=
  Z.of_nat (List.length sel) = Z.min top (Z.of_nat (List.length summary))
  /\ descending (@total_views _) sel
  /\ forall k : Z,
       prefix_of (filter (fun r => total_views r =? k) sel)
                 (filter (fun r => total_views r =? k) summary).

(** ** The data of the end-to-end example *)

Definition movies_ex : list Movie :=
  [ mkMovie 1 "A" 1990 ["Comedy"%string];
    mkMovie 2 "B" 1991 ["Drama"%string] ].

(** Users u1, u2 are 1, 2; the timestamps t1, t2, t3 are 100, 200, 300. *)
Definition ratings_ex : list Rating :=
  [ mkRating 1 1 (4#1) 100; mkRating 1 1 (5#1) 200; mkRating 2 2 (3#1) 300 ].

Definition tags_ex : list Tag := [ mkTag 1 "funny" ].

(** Further sample catalogs: a movie of two genres, one of them "Romantic
    Comedy"; a movie whose genre list is empty. *)
Definition romcom_ex : list Movie :=
  [ mkMovie 3 "C" 1995 ["Romantic Comedy"%string; "Drama"%string] ].

Definition no_genre_ex : list Movie := [ mkMovie 4 "D" 1995 [] ].

(** A summary of three movies, the first two with equal [total_views]. *)
Definition ties_ex : list (Summary Movie) :=
  [ mkSummary (mkMovie 1 "A" 1990 ["Comedy"%string]) 5 (4#1) ["funny"%string];
    mkSummary (mkMovie 2 "B" 1991 ["Drama"%string]) 5 (3#1) [];
    mkSummary (mkMovie 3 "C" 1995 ["Drama"%string]) 3 (1#2) [] ].

(** A catalog of five movies spread over three decades, and a wider
    summary with ratings inside [1, 5]. *)
Definition decades_ex : list Movie :=
  [ mkMovie 1 "A" 1990 ["Comedy"%string];
    mkMovie 2 "B" 1991 ["Drama"%string];
    mkMovie 5 "E" 1989 ["Drama"%string; "Comedy"%string];
    mkMovie 6 "F" 2003 ["Comedy"%string];
    mkMovie 7 "G" 1999 ["Action"%string] ].

Definition rated_ex : list (Summary Movie) :=
  [ mkSummary (mkMovie 1 "A" 1990 ["Comedy"%string]) 5 (4#1) ["funny"%string];
    mkSummary (mkMovie 2 "B" 1991 ["Drama"%string]) 7 (3#1) [];
    mkSummary (mkMovie 7 "G" 1999 ["Action"%string]) 3 (5#1)
              ["loud"%string; "fast"%string] ].

(** Summaries none of whose movies has a tag. *)
Definition untagged_ex : list (Summary Movie) :=
  [ mkSummary (mkMovie 2 "B" 1991 ["Drama"%string]) 7 (3#1) [];
    mkSummary (mkMovie 3 "C" 1995 ["Drama"%string]) 3 (1#2) [] ].

(* ================================================================== *)
(** * Facts about masks, filters and sorted frames *)

Lemma in_interval_iff (lo hi x : Z) :
  in_interval lo hi x = true <-> lo <= x <= hi.
Proof.
  unfold in_interval. rewrite andb_true_iff, !Z.leb_le. tauto.
Qed.

Lemma in_interval_empty (lo hi x : Z) : hi < lo -> in_interval lo hi x = false.
Proof.
  intros Hlt. destruct (in_interval lo hi x) eqn:E; [|reflexivity].
  apply in_interval_iff in E. lia.
Qed.

Section Masks.

Context {R : Type} (f : R -> Z).

(** The vectorised interval test followed by [loc] is a row filter. *)
Lemma loc_interval_mask (df : list R) (lo hi : Z) :
  loc df (and_mask (ge_scalar (col f df) lo) (le_scalar (col f df) hi))
  = filter (fun r => in_interval lo hi (f r)) df.
Proof.
  unfold col, ge_scalar, le_scalar, in_interval.
  induction df as [|r df IH]; simpl; [reflexivity|].
  rewrite IH. reflexivity.
Qed.

Lemma loc_eq_mask (df : list R) (k : Z) :
  loc df (eq_scalar (col f df) k) = filter (fun r => f r =? k) df.
Proof.
  unfold col, eq_scalar.
  induction df as [|r df IH]; simpl; [reflexivity|].
  rewrite IH. reflexivity.
Qed.

End Masks.

Lemma filter_nothing {A : Type} (p : A -> bool) (l : list A) :
  (forall x, In x l -> p x = false) -> filter p l = [].
Proof.
  induction l as [|x l IH]; simpl; intros H; [reflexivity|].
  rewrite (H x (or_introl eq_refl)). apply IH. intros y Hy. apply H. now right.
Qed.

Lemma filter_twice {A : Type} (p : A -> bool) (l : list A) :
  filter p (filter p l) = filter p l.
Proof.
  induction l as [|x l IH]; simpl; [reflexivity|].
  destruct (p x) eqn:E; simpl; [rewrite E, IH|]; auto.
Qed.

Lemma filter_permutation {A : Type} (p : A -> bool) (l l' : list A) :
  Permutation l l' -> Permutation (filter p l) (filter p l').
Proof.
  induction 1 as [|x l l' _ IH|x y l|l l' l'' _ IH1 _ IH2]; simpl.
  - constructor.
  - destruct (p x); [apply perm_skip|]; exact IH.
  - destruct (p x), (p y); try apply Permutation_refl. apply perm_swap.
  - eapply perm_trans; eassumption.
Qed.

Lemma permutation_of_nil {A : Type} (l : list A) : Permutation l [] -> l = [].
Proof.
  intros H. apply Permutation_sym in H. now apply Permutation_nil in H.
Qed.

(** Both definitions of each filter are the same row filter. *)
Lemma filters_time_interval_unfold (K : SortKind) (df : list Rating)
  (s e : Z) :
  Filters.filter_time_interval df s e
  = sort_values_desc datetime_rating
      (filter (fun r => in_interval s e (datetime_rating r)) df).
Proof.
  unfold Filters.filter_time_interval. now rewrite loc_interval_mask.
Qed.

Lemma utils_time_interval_unfold (K : SortKind) (df : list Rating)
  (s e : Z) :
  Utils.filter_time_interval df s e
  = sort_values_desc datetime_rating
      (filter (fun r => in_interval s e (datetime_rating r)) df).
Proof.
  unfold Utils.filter_time_interval. now rewrite loc_interval_mask.
Qed.

Lemma sorted_filter_meets_spec (K : SortKind) (df : list Rating) (s e : Z) :
  time_interval_spec df s e
    (sort_values_desc datetime_rating
       (filter (fun r => in_interval s e (datetime_rating r)) df)).
Proof.
  pose proof (sort_values_perm datetime_rating
                (filter (fun r => in_interval s e (datetime_rating r)) df))
    as Hperm.
  split; [exact Hperm|]. split; [|split].
  - intros r; split.
    + intros Hin. apply (Permutation_in _ Hperm), filter_In in Hin.
      destruct Hin as [Hin Hr]. apply in_interval_iff in Hr. tauto.
    + intros [Hin Hr]. apply (Permutation_in _ (Permutation_sym Hperm)).
      apply filter_In. split; [assumption | now apply in_interval_iff].
  - apply sort_values_sorted.
  - intros Hnone. apply permutation_of_nil.
    assert (Hnil : filter (fun r => in_interval s e (datetime_rating r)) df
                   = []).
    { apply filter_nothing. intros r Hr.
      destruct (in_interval s e (datetime_rating r)) eqn:E; [|reflexivity].
      apply in_interval_iff in E. now elim (Hnone r Hr). }
    rewrite Hnil in Hperm |- *. exact Hperm.
Qed.

Lemma production_filter_meets_spec {G : Type} (df : list (MovieRow G))
  (p1 p2 : Z) :
  production_date_spec df p1 p2
    (filter (fun m => in_interval p1 p2 (movie_year m)) df).
Proof.
  split; [reflexivity|]. split.
  - intros m; split.
    + intros Hm. apply filter_In in Hm. destruct Hm as [Hin Hy].
      apply in_interval_iff in Hy. tauto.
    + intros [Hin Hy]. apply filter_In. split; [assumption|].
      now apply in_interval_iff.
  - intros Hlt. apply filter_nothing. intros m _.
    now apply in_interval_empty.
Qed.

Lemma sorted_filter_idempotent (K : SortKind) (df : list Rating) (s e : Z) :
  let p := fun r => in_interval s e (datetime_rating r) in
  Permutation
    (sort_values_desc datetime_rating
       (filter p (sort_values_desc datetime_rating (filter p df))))
    (sort_values_desc datetime_rating (filter p df)).
Proof.
  intros p.
  eapply perm_trans; [apply sort_values_perm|].
  eapply perm_trans;
    [apply filter_permutation, sort_values_perm|].
  rewrite filter_twice. apply Permutation_sym, sort_values_perm.
Qed.

(* ================================================================== *)
(** * The filter module *)

(** C6. For every ratings table and timestamps [s <= e],
    [filter_time_interval] (in [filters.py] and in [utils.py]) returns
    exactly the rating records whose [datetime_rating] lies in the closed
    interval [[s, e]], as many times as they occur in the table, in
    descending order of [datetime_rating]; when no record matches the result
    is the empty frame.  The function is total: no outcome is an error. *)
Theorem filter_time_interval_closed_interval (K : SortKind)
  (df : list Rating) (s e : Z) :
  s <= e ->
  time_interval_spec df s e (Filters.filter_time_interval df s e)
  /\ time_interval_spec df s e (Utils.filter_time_interval df s e).
Proof.
  intros _. split.
  - rewrite filters_time_interval_unfold. apply sorted_filter_meets_spec.
  - rewrite utils_time_interval_unfold. apply sorted_filter_meets_spec.
Qed.

Lemma filter_time_interval_closed_interval_witness :
  100 <= 200
  /\ time_interval_spec ratings_ex 100 200
       (@Filters.filter_time_interval stable_kind ratings_ex 100 200)
  /\ time_interval_spec ratings_ex 100 200
       (@Utils.filter_time_interval stable_kind ratings_ex 100 200).
Proof.
  split; [lia|].
  apply (@filter_time_interval_closed_interval stable_kind ratings_ex 100 200).
  lia.
Defined.

(** C7. For every movie catalog and integers [p1], [p2],
    [filter_production_date] (in [filters.py] and in [utils.py]) returns
    exactly the rows with [p1 <= movie_year <= p2], in their input order;
    when [p1 > p2] the result is empty. *)
Theorem filter_production_date_exact (G : Type) (df : list (MovieRow G))
  (p1 p2 : Z) :
  production_date_spec df p1 p2 (Filters.filter_production_date df p1 p2)
  /\ production_date_spec df p1 p2 (Utils.filter_production_date df p1 p2).
Proof.
  split.
  - unfold Filters.filter_production_date. rewrite loc_interval_mask.
    apply production_filter_meets_spec.
  - unfold Utils.filter_production_date. rewrite loc_interval_mask.
    apply production_filter_meets_spec.
Qed.

(** C8. For every ratings table and interval [s <= e], filtering the result
    of [filter_time_interval] again with the same interval yields the same
    records, each as many times as after the first filtering. *)
Theorem filter_time_interval_idempotent (K : SortKind) (df : list Rating)
  (s e : Z) :
  s <= e ->
  Permutation
    (Filters.filter_time_interval (Filters.filter_time_interval df s e) s e)
    (Filters.filter_time_interval df s e)
  /\ Permutation
       (Utils.filter_time_interval (Utils.filter_time_interval df s e) s e)
       (Utils.filter_time_interval df s e).
Proof.
  intros _. split.
  - rewrite !filters_time_interval_unfold. apply sorted_filter_idempotent.
  - rewrite !utils_time_interval_unfold. apply sorted_filter_idempotent.
Qed.

Lemma filter_time_interval_idempotent_witness :
  100 <= 300
  /\ Permutation
       (@Filters.filter_time_interval reversing_kind
          (@Filters.filter_time_interval reversing_kind ratings_ex 100 300)
          100 300)
       (@Filters.filter_time_interval reversing_kind ratings_ex 100 300)
  /\ Permutation
       (@Utils.filter_time_interval reversing_kind
          (@Utils.filter_time_interval reversing_kind ratings_ex 100 300)
          100 300)
       (@Utils.filter_time_interval reversing_kind ratings_ex 100 300).
Proof.
  split; [lia|].
  apply (@filter_time_interval_idempotent reversing_kind ratings_ex 100 300).
  lia.
Defined.

(* ================================================================== *)
(** * The genre filter of the orchestrator *)

Lemma prefix_iff (g s : string) :
  String.prefix g s = true <-> exists post : string, s = (g ++ post)%string.
Proof.
  revert s; induction g as [|a g IH]; intros s.
  - destruct s; simpl; split; intros; eauto.
  - destruct s as [|b s]; simpl.
    + split; [discriminate | intros [post H]; discriminate].
    + destruct (ascii_dec a b) as [->|Hab].
      * rewrite IH. split; intros [post H]; exists post.
        -- now rewrite H.
        -- now inversion H.
      * split; [discriminate|]. intros [post H]. injection H as Heq _.
        congruence.
Qed.

(** [substringb] decides [substring_of]. *)
Lemma substringb_iff (g s : string) :
  substringb g s = true <-> substring_of g s.
Proof.
  unfold substring_of. induction s as [|c s IH].
  - change (substringb g EmptyString)
      with (String.prefix g EmptyString || false)%bool.
    rewrite orb_false_r, prefix_iff. split.
    + intros [post H]. exists EmptyString, post. exact H.
    + intros [pre [post H]]. destruct pre; [eauto | discriminate].
  - change (substringb g (String c s))
      with (String.prefix g (String c s) || substringb g s)%bool.
    rewrite orb_true_iff, prefix_iff, IH. split.
    + intros [[post H]|[pre [post H]]].
      * exists EmptyString, post. exact H.
      * exists (String c pre), post. simpl. now rewrite H.
    + intros [pre [post H]]. destruct pre as [|c' pre]; simpl in H.
      * left. eauto.
      * right. inversion H. eauto.
Qed.

Lemma special_dot (c : ascii) :
  is_special c = false -> Ascii.eqb c "."%char = false.
Proof.
  unfold is_special. simpl. destruct (Ascii.eqb c "."%char); auto.
Qed.

(** A pattern of plain text compiles to its own characters ... *)
Lemma re_compile_plain (g : string) :
  plain_text g = true -> re_compile g = Some (literals g).
Proof.
  induction g as [|c g IH]; simpl; [reflexivity|].
  intros H. apply andb_true_iff in H. destruct H as [Hc Hg].
  apply negb_true_iff in Hc.
  rewrite (IH Hg), (special_dot _ Hc), Hc. reflexivity.
Qed.

Lemma match_here_literals (g s : string) :
  match_here (literals g) s = String.prefix g s.
Proof.
  revert s; induction g as [|a g IH]; intros s.
  - destruct s; reflexivity.
  - destruct s as [|b s]; simpl; [reflexivity|].
    destruct (ascii_dec a b) as [->|Hab].
    + now rewrite Ascii.eqb_refl, IH.
    + apply Ascii.eqb_neq in Hab. now rewrite Hab.
Qed.

(** ... and searching it is the substring test. *)
Lemma re_search_literals (g s : string) :
  re_search (literals g) s = substringb g s.
Proof.
  induction s as [|c s IH].
  - change (re_search (literals g) EmptyString)
      with (match_here (literals g) EmptyString || false)%bool.
    change (substringb g EmptyString)
      with (String.prefix g EmptyString || false)%bool.
    now rewrite match_here_literals.
  - change (re_search (literals g) (String c s))
      with (match_here (literals g) (String c s)
            || re_search (literals g) s)%bool.
    change (substringb g (String c s))
      with (String.prefix g (String c s) || substringb g s)%bool.
    now rewrite match_here_literals, IH.
Qed.

Lemma filter_filter_and {A : Type} (p q : A -> bool) (l : list A) :
  filter q (filter p l) = filter (fun x => (p x && q x)%bool) l.
Proof.
  induction l as [|x l IH]; simpl; [reflexivity|].
  destruct (p x); simpl; [destruct (q x)|]; now rewrite IH.
Qed.

(** Indexing with a mask computed from rows none of whose genre is
    missing. *)
Lemma getitem_mask_no_nan (f : string -> bool) (rows : list MovieGenre) :
  Forall (fun r => genres r <> None) rows ->
  getitem_mask rows (map (option_map f) (col (@genres _) rows))
  = Ok (filter (fun r => match genres r with
                         | Some s => f s
                         | None => false
                         end) rows).
Proof.
  unfold getitem_mask, col. intros Hall.
  assert (Hmask :
    bool_mask (map (option_map f) (map (@genres _) rows))
    = Some (map (fun r => match genres r with
                          | Some s => f s
                          | None => false
                          end) rows)).
  { induction Hall as [|r rows Hr _ IH]; simpl; [reflexivity|].
    destruct (genres r) as [s|]; [|congruence]. simpl. now rewrite IH. }
  rewrite Hmask. f_equal. clear Hmask Hall.
  induction rows as [|r rows IH]; simpl; [reflexivity|]. now rewrite IH.
Qed.

Lemma one_row_per_genre_year (m : Movie) (r : MovieGenre) :
  In r (one_row_per_genre m) -> movie_year r = movie_year m.
Proof.
  unfold one_row_per_genre. rewrite in_map_iff. intros [g [<- _]]. reflexivity.
Qed.

Lemma one_row_per_genre_some (m : Movie) :
  Forall (fun r : MovieGenre => genres r <> None) (one_row_per_genre m).
Proof.
  apply Forall_forall. unfold one_row_per_genre. intros r Hr.
  apply in_map_iff in Hr. destruct Hr as [g [<- _]]. discriminate.
Qed.

Lemma explode_row_nonempty (m : Movie) :
  genres m <> [] -> explode_row m = one_row_per_genre m.
Proof.
  unfold explode_row, one_row_per_genre. destruct (genres m); congruence.
Qed.

(** Filtering by year and then exploding is exploding and then filtering by
    year, as long as the rows kept by the year filter have a genre. *)
Lemma explode_after_year_filter (lo hi : Z) (catalog : list Movie) :
  (forall m, In m catalog -> lo <= movie_year m <= hi -> genres m <> []) ->
  explode (filter (fun m => in_interval lo hi (movie_year m)) catalog)
  = filter (fun r : MovieGenre => in_interval lo hi (movie_year r))
           (flat_map one_row_per_genre catalog).
Proof.
  unfold explode. induction catalog as [|m catalog IH]; intros Hg;
    [reflexivity|].
  simpl. rewrite filter_app.
  assert (IH' := IH (fun m' Hm' => Hg m' (or_intror Hm'))).
  destruct (in_interval lo hi (movie_year m)) eqn:E.
  - simpl. rewrite IH'. f_equal.
    rewrite explode_row_nonempty
      by (apply Hg; [now left | now apply in_interval_iff]).
    symmetry. apply forallb_filter_id. apply forallb_forall.
    intros r Hr. now rewrite (one_row_per_genre_year _ _ Hr).
  - rewrite IH'.
    rewrite (@filter_nothing _ _ (one_row_per_genre m)); [reflexivity|].
    intros r Hr. now rewrite (one_row_per_genre_year _ _ Hr).
Qed.

Lemma explode_rows_some (lo hi : Z) (catalog : list Movie) :
  Forall (fun r : MovieGenre => genres r <> None)
         (filter (fun r : MovieGenre => in_interval lo hi (movie_year r))
                 (flat_map one_row_per_genre catalog)).
Proof.
  apply Forall_forall. intros r Hr. apply filter_In in Hr.
  destruct Hr as [Hr _]. apply in_flat_map in Hr. destruct Hr as [m [_ Hr]].
  pose proof (one_row_per_genre_some m) as Hall.
  rewrite Forall_forall in Hall. now apply Hall.
Qed.

(** The rows of [spec_filtered_subset], spelled out. *)
Lemma spec_filtered_subset_In (g : string) (y : Z) (catalog : list Movie)
  (r : MovieGenre) :
  In r (spec_filtered_subset g y catalog)
  <-> exists (m : Movie) (s : string),
        In m catalog /\ In s (genres m)
        /\ r = mkMovie (movie_movieId m) (title m) (movie_year m) (Some s)
        /\ y / 10 * 10 <= movie_year m <= y / 10 * 10 + 9
        /\ substring_of g s.
Proof.
  unfold spec_filtered_subset, one_row_per_genre, genre_contains.
  rewrite filter_In, in_flat_map. split.
  - intros [[m [Hm Hr]] Hp]. apply in_map_iff in Hr.
    destruct Hr as [s [<- Hs]]. simpl in Hp.
    apply andb_true_iff in Hp. destruct Hp as [Hy Hsub].
    apply in_interval_iff in Hy. apply substringb_iff in Hsub.
    exists m, s. tauto.
  - intros [m [s [Hm [Hs [-> [Hy Hsub]]]]]]. split.
    + exists m. split; [assumption|]. apply in_map_iff. eauto.
    + simpl. apply andb_true_iff. split.
      * now apply in_interval_iff.
      * now apply substringb_iff.
Qed.

(** The subset computed by lines 182-188 when the requested genre is plain
    text and no movie of the decade has an empty genre list. *)
Lemma closest_match_filter_plain (g : string) (y : Z) (catalog : list Movie) :
  plain_text g = true ->
  (forall m, In m catalog ->
             y / 10 * 10 <= movie_year m <= y / 10 * 10 + 9 ->
             genres m <> []) ->
  Utils.closest_match_filter g y catalog
  = Ok (spec_filtered_subset g y catalog).
Proof.
  intros Hplain Hgenres.
  unfold Utils.closest_match_filter, Utils.filter_production_date,
    str_contains, spec_filtered_subset.
  rewrite loc_interval_mask, (re_compile_plain _ Hplain).
  rewrite (@explode_after_year_filter _ _ _ Hgenres).
  cbn [bind].
  rewrite getitem_mask_no_nan by apply explode_rows_some.
  rewrite filter_filter_and. apply f_equal. apply filter_ext. intros r.
  unfold genre_contains. destruct (genres r); [|reflexivity].
  now rewrite re_search_literals.
Qed.

(** C4, counterexample.  The pattern is a regular expression: requesting
    the genre "." keeps the "Comedy" and "Drama" rows of the sample catalog,
    neither of which contains a full stop.  And a movie of the decade whose
    genre list is empty makes the mask hold NaN, which raises. *)
Lemma closest_match_filter_not_substring :
  Utils.closest_match_filter "." 1990 movies_ex
  <> Ok (spec_filtered_subset "." 1990 movies_ex)
  /\ Utils.closest_match_filter "Comedy" 1990 no_genre_ex
     <> Ok (spec_filtered_subset "Comedy" 1990 no_genre_ex).
Proof.
  split; vm_compute; discriminate.
Qed.

(** C4, as amended.  For every genre string [g] free of regular-expression
    special characters, every production year [y] and every catalog in which
    each movie of the decade [[y//10*10, y//10*10 + 9]] has at least one
    genre, the subset computed by lines 182-188 of [find_closest_match_ut]
    consists exactly of the catalog rows, expanded to one row per genre, whose
    [movie_year] lies in the decade and whose genre contains [g] as a
    substring. *)
Theorem closest_match_filter_plain_genre (g : string) (y : Z)
  (catalog : list Movie) :
  plain_text g = true ->
  (forall m, In m catalog ->
             y / 10 * 10 <= movie_year m <= y / 10 * 10 + 9 ->
             genres m <> []) ->
  Utils.closest_match_filter g y catalog
  = Ok (spec_filtered_subset g y catalog)
  /\ forall r : MovieGenre,
       In r (spec_filtered_subset g y catalog)
       <-> exists (m : Movie) (s : string),
             In m catalog /\ In s (genres m)
             /\ r = mkMovie (movie_movieId m) (title m) (movie_year m)
                            (Some s)
             /\ y / 10 * 10 <= movie_year m <= y / 10 * 10 + 9
             /\ substring_of g s.
Proof.
  intros Hplain Hgenres. split.
  - now apply closest_match_filter_plain.
  - intros r. apply spec_filtered_subset_In.
Qed.

Lemma closest_match_filter_plain_genre_witness :
  plain_text "Comedy" = true
  /\ (forall m, In m romcom_ex ->
                1990 / 10 * 10 <= movie_year m <= 1990 / 10 * 10 + 9 ->
                genres m <> [])
  /\ Utils.closest_match_filter "Comedy" 1990 romcom_ex
     = Ok (spec_filtered_subset "Comedy" 1990 romcom_ex).
Proof.
  assert (Hg : forall m, In m romcom_ex ->
                 1990 / 10 * 10 <= movie_year m <= 1990 / 10 * 10 + 9 ->
                 genres m <> []).
  { intros m [<-|[]] _. discriminate. }
  split; [reflexivity|]. split; [exact Hg|].
  apply (closest_match_filter_plain_genre "Comedy" 1990 romcom_ex);
    [reflexivity | exact Hg].
Defined.

(** The "Romantic Comedy" row is kept when the requested genre is
    "Comedy"; the "Drama" row of the same movie is not. *)
Example romantic_comedy_is_kept :
  Utils.closest_match_filter "Comedy" 1990 romcom_ex
  = Ok [ mkMovie 3 "C" 1995 (Some "Romantic Comedy"%string) ].
Proof. reflexivity. Qed.

(* ================================================================== *)
(** * The aggregation module *)

(** The tag lookup itself, called with both arguments, is total and returns
    the tags of the movie in table order; none when the movie has no tag
    record. *)
Lemma get_tags_per_movieId_filter (m : Z) (tags_df : list Tag) :
  Utils.get_tags_per_movieId m tags_df
  = map tag (filter (fun t => tag_movieId t =? m) tags_df).
Proof.
  unfold Utils.get_tags_per_movieId.
  change (col movieId tags_df) with (col tag_movieId tags_df).
  now rewrite loc_eq_mask.
Qed.

Lemma get_tags_per_movieId_no_record (m : Z) (tags_df : list Tag) :
  (forall t, In t tags_df -> tag_movieId t <> m) ->
  Utils.get_tags_per_movieId m tags_df = [].
Proof.
  intros Hnone. rewrite get_tags_per_movieId_filter, filter_nothing;
    [reflexivity|].
  intros t Ht. apply Z.eqb_neq. now apply Hnone.
Qed.

(** A function called with too few arguments fails on the first value of
    the series. *)
Lemma series_apply_raises {A B : Type} (e : exn) (s : list A) :
  series_apply (fun _ : A => @Raise B e) s
  = match s with
    | [] => Ok []
    | _ :: _ => Raise e
    end.
Proof. destruct s; reflexivity. Qed.

(** [aggregate_data] returns only when the merged frame is empty. *)
Lemma aggregate_data_outcome {M : Type} `{MovieIdCol M} (df : list Rating)
  (movies_df : list M) :
  Utils.aggregate_data df movies_df
  = match Utils.merged df movies_df with
    | [] => Ok []
    | _ :: _ => Raise (TypeError "get_tags_per_movieId" ["tags_df"%string])
    end.
Proof.
  unfold Utils.aggregate_data, call2.
  destruct (Utils.merged df movies_df); reflexivity.
Qed.

Lemma aggregate_data_returns_no_row {M : Type} `{MovieIdCol M}
  (df : list Rating) (movies_df : list M) (out : list (Summary M)) :
  Utils.aggregate_data df movies_df = Ok out -> out = [].
Proof.
  rewrite aggregate_data_outcome.
  destruct (Utils.merged df movies_df); [|discriminate].
  now intros [= <-].
Qed.

(** ** The merged frame *)

Lemma insert_key_In (k x : Z) (l : list Z) :
  In x (insert_key k l) <-> x = k \/ In x l.
Proof.
  induction l as [|y l IH]; simpl.
  - intuition.
  - destruct (k <=? y); simpl; [intuition|]. rewrite IH. intuition.
Qed.

Lemma sort_keys_In (x : Z) (l : list Z) : In x (sort_keys l) <-> In x l.
Proof.
  unfold sort_keys. induction l as [|y l IH]; simpl; [tauto|].
  rewrite insert_key_In, IH. intuition.
Qed.

Lemma group_keys_In {R : Type} `{MovieIdCol R} (df : list R) (k : Z) :
  In k (group_keys df) <-> exists r, In r df /\ movieId r = k.
Proof.
  unfold group_keys, col. rewrite sort_keys_In, nodup_In, in_map_iff.
  split; intros [r Hr]; exists r; tauto.
Qed.

Lemma group_nonempty {R : Type} `{MovieIdCol R} (df : list R) (k : Z) :
  In k (group_keys df) <-> group df k <> [].
Proof.
  rewrite group_keys_In. unfold group. split.
  - intros [r [Hr Hk]] Hnil.
    assert (Hin : In r (filter (fun r => movieId r =? k) df)).
    { apply filter_In. split; [assumption | now apply Z.eqb_eq]. }
    rewrite Hnil in Hin. contradiction.
  - intros Hne. destruct (filter (fun r => movieId r =? k) df) as [|r l] eqn:E;
      [congruence|].
    assert (Hin : In r (filter (fun r => movieId r =? k) df))
      by (rewrite E; now left).
    apply filter_In in Hin. exists r. split; [tauto|].
    now apply Z.eqb_eq.
Qed.

Lemma merge_In {L V : Type} `{MovieIdCol L} (left : list L)
  (right : list (Z * V)) (l : L) (v : V) :
  In (l, v) (merge left right) <-> In l left /\ In (movieId l, v) right.
Proof.
  unfold merge. rewrite in_flat_map. split.
  - intros [l' [Hl' Hin]]. apply in_map_iff in Hin.
    destruct Hin as [[k v'] [Heq Hkv]]. simpl in Heq.
    injection Heq as -> ->. apply filter_In in Hkv. simpl in Hkv.
    destruct Hkv as [Hkv Hk]. apply Z.eqb_eq in Hk. subst k. tauto.
  - intros [Hl Hr]. exists l. split; [assumption|].
    apply in_map_iff. exists (movieId l, v). split; [reflexivity|].
    apply filter_In. split; [assumption|]. simpl. apply Z.eqb_refl.
Qed.

(** The merged frame holds, for each catalog row whose movie has at least one
    filtered rating, the number of those ratings and their mean; a movie
    without filtered rating is not in it. *)
Lemma merged_In {M : Type} `{MovieIdCol M} (df : list Rating)
  (movies_df : list M) (m : M) (views : Z) (avg : Q) :
  In (m, views, avg) (Utils.merged df movies_df)
  <-> In m movies_df
      /\ group df (movieId m) <> []
      /\ views = Z.of_nat (List.length (group df (movieId m)))
      /\ avg = mean (col rating (group df (movieId m))).
Proof.
  unfold Utils.merged. rewrite !merge_In.
  change (movieId (m, views)) with (movieId m).
  unfold groupby_count, groupby_mean. rewrite !in_map_iff. split.
  - intros [[Hm [k [Hk Hkeys]]] [k' [Hk' _]]].
    injection Hk as -> ->. injection Hk' as -> ->.
    apply group_nonempty in Hkeys. tauto.
  - intros [Hm [Hne [-> ->]]]. apply group_nonempty in Hne.
    repeat split; try assumption; exists (movieId m); tauto.
Qed.

Lemma insert_key_NoDup (k : Z) (l : list Z) :
  ~ In k l -> NoDup l -> NoDup (insert_key k l).
Proof.
  induction l as [|y l IH]; simpl; intros Hk Hl.
  - constructor; [tauto | constructor].
  - destruct (k <=? y).
    + constructor; [simpl; tauto | assumption].
    + inversion Hl as [|? ? Hy Hl']; subst. constructor.
      * rewrite insert_key_In. intros [->|Hin]; tauto.
      * apply IH; tauto.
Qed.

Lemma group_keys_NoDup {R : Type} `{MovieIdCol R} (df : list R) :
  NoDup (group_keys df).
Proof.
  unfold group_keys, sort_keys.
  generalize (NoDup_nodup Z.eq_dec (col movieId df)).
  generalize (nodup Z.eq_dec (col movieId df)). intros l Hl.
  induction Hl as [|k l Hk Hl IH]; simpl; [constructor|].
  apply insert_key_NoDup; [|assumption].
  fold (sort_keys l). now rewrite sort_keys_In.
Qed.

(** A statistic per group has one entry for the key of a rated movie and
    none for another key. *)
Lemma lookup_group_entry {V : Type} (F : Z -> V) (keys : list Z) (k : Z) :
  NoDup keys ->
  filter (fun kv : Z * V => fst kv =? k) (map (fun k' => (k', F k')) keys)
  = if in_dec Z.eq_dec k keys then [(k, F k)] else [].
Proof.
  induction 1 as [|k' keys Hk' Hnd IH]; simpl; [reflexivity|].
  rewrite IH. destruct (Z.eqb_spec k' k) as [->|Hne].
  - destruct (Z.eq_dec k k) as [Hkk|Hkk]; [|congruence].
    destruct (in_dec Z.eq_dec k keys); [contradiction | reflexivity].
  - destruct (Z.eq_dec k' k) as [Heq|Hne']; [congruence|].
    destruct (in_dec Z.eq_dec k keys); reflexivity.
Qed.

(** Inner join: the movie column of the merged frame is the catalog, in
    catalog order, without the movies that have no filtered rating. *)
Lemma merged_movie_column {M : Type} `{MovieIdCol M} (df : list Rating)
  (movies_df : list M) :
  map (fun row : M * Z * Q => fst (fst row)) (Utils.merged df movies_df)
  = filter (fun m => if in_dec Z.eq_dec (movieId m) (group_keys df)
                     then true else false)
           movies_df.
Proof.
  unfold Utils.merged, merge, groupby_count, groupby_mean.
  induction movies_df as [|m movies_df IH]; [reflexivity|].
  simpl flat_map. rewrite flat_map_app, map_app, IH. simpl filter.
  rewrite (lookup_group_entry _ (movieId m) (group_keys_NoDup df)).
  destruct (in_dec Z.eq_dec (movieId m) (group_keys df)) as [Hin|Hout];
    [|reflexivity].
  simpl. rewrite app_nil_r.
  change (movieId (m, Z.of_nat (List.length (group df (movieId m)))))
    with (movieId m).
  rewrite (lookup_group_entry _ (movieId m) (group_keys_NoDup df)).
  destruct (in_dec Z.eq_dec (movieId m) (group_keys df)); [|contradiction].
  reflexivity.
Qed.

(** Whenever a catalog movie has a filtered rating, [aggregate_data]
    raises. *)
Lemma aggregate_data_raises_when_joined {M : Type} `{MovieIdCol M}
  (df : list Rating) (movies_df : list M) (m : M) (r : Rating) :
  In m movies_df -> In r df -> rating_movieId r = movieId m ->
  Utils.aggregate_data df movies_df
  = Raise (TypeError "get_tags_per_movieId" ["tags_df"%string]).
Proof.
  intros Hm Hr Hid. rewrite aggregate_data_outcome.
  assert (Hin : In (m, Z.of_nat (List.length (group df (movieId m))),
                    mean (col rating (group df (movieId m))))
                   (Utils.merged df movies_df)).
  { apply merged_In. repeat split; try assumption.
    apply group_nonempty, group_keys_In. exists r. tauto. }
  destruct (Utils.merged df movies_df); [contradiction | reflexivity].
Qed.

(** C2, at a failing input.  On the ratings and catalog of the end-to-end
    example the merged frame holds movie 1 with 2 views and mean 9/2 and
    movie 2 with 1 view and mean 3, as the claim describes; computing the
    [tags] column then calls [get_tags_per_movieId] without [tags_df], and
    [aggregate_data] raises [TypeError] instead of returning that frame. *)
Theorem aggregate_data_raises_on_joined_movie :
  Utils.merged ratings_ex movies_ex
  = [ (mkMovie 1 "A" 1990 ["Comedy"%string], 2, (9#2)%Q);
      (mkMovie 2 "B" 1991 ["Drama"%string], 1, (3#1)%Q) ]
  /\ Utils.aggregate_data ratings_ex movies_ex
     = Raise (TypeError "get_tags_per_movieId" ["tags_df"%string]).
Proof. split; reflexivity. Qed.

(** C3, at a failing input.  Movie 2 has no record in the tags table, and
    the lookup called with both arguments returns the empty list for it;
    the tag-attachment step of [aggregate_data] calls the lookup with the
    movieId alone and raises [TypeError]. *)
Theorem tag_attachment_raises_without_tags :
  Utils.get_tags_per_movieId 2 tags_ex = []
  /\ Utils.aggregate_data [ mkRating 2 2 (3#1) 300 ]
                          [ mkMovie 2 "B" 1991 ["Drama"%string] ]
     = Raise (TypeError "get_tags_per_movieId" ["tags_df"%string]).
Proof. split; reflexivity. Qed.

(* ================================================================== *)
(** * The insight orchestrator *)

(** [find_closest_match_ut] never returns: it propagates an exception of the
    genre filter, and otherwise fails binding the arguments of
    [aggregate_data]. *)
Lemma find_closest_match_ut_outcome (K : SortKind) (genre : string)
  (prod_year : Z) (dataset : list Movie) :
  Utils.find_closest_match_ut genre prod_year dataset
  = match Utils.closest_match_filter genre prod_year dataset with
    | Ok _ => Raise (TypeError "aggregate_data" ["movies_df"%string])
    | Raise e => Raise e
    end.
Proof.
  unfold Utils.find_closest_match_ut, Utils.closest_match_filter.
  destruct (str_contains _ genre) as [mask|e]; [|reflexivity].
  cbn [bind]. destruct (getitem_mask _ mask); reflexivity.
Qed.

Lemma find_closest_match_ut_never_returns (K : SortKind) (genre : string)
  (prod_year : Z) (dataset : list Movie)
  (out : list MovieGenre * list (Summary MovieGenre)) :
  Utils.find_closest_match_ut genre prod_year dataset <> Ok out.
Proof.
  rewrite find_closest_match_ut_outcome.
  destruct (Utils.closest_match_filter genre prod_year dataset); discriminate.
Qed.

(** C1, at the input of the claim.  The genre and decade filter keeps the
    "Comedy" row of movie 1 only, but [find_closest_match_ut] then calls
    [aggregate_data(filter_df)] without [movies_df] and raises [TypeError];
    no summary is returned.  Called with the ratings and that row,
    [aggregate_data] raises too, at the tag lookup. *)
Theorem find_closest_match_example_raises (K : SortKind) :
  Utils.closest_match_filter "Comedy" 1990 movies_ex
  = Ok [ mkMovie 1 "A" 1990 (Some "Comedy"%string) ]
  /\ Utils.find_closest_match_ut "Comedy" 1990 movies_ex
     = Raise (TypeError "aggregate_data" ["movies_df"%string])
  /\ Utils.aggregate_data ratings_ex
       [ mkMovie 1 "A" 1990 (Some "Comedy"%string) ]
     = Raise (TypeError "get_tags_per_movieId" ["tags_df"%string]).
Proof. repeat split; reflexivity. Qed.

(** C10. The two definitions of [find_closest_match_ut], in
    [utils/inisight.py] and in [utils/utils.py], have the same outcome on
    every genre, production year and dataset: the same exception (neither
    ever returns a pair). *)
Theorem orchestrators_agree (K : SortKind) (genre : string) (prod_year : Z)
  (dataset : list Movie) :
  Inisight.find_closest_match_ut genre prod_year dataset
  = Utils.find_closest_match_ut genre prod_year dataset.
Proof.
  unfold Inisight.find_closest_match_ut, Utils.find_closest_match_ut,
    Inisight.filter_production_date, Inisight.aggregate_data,
    Inisight.generate_plots.
  reflexivity.
Qed.

(* ================================================================== *)
(** * The presentation module: selection and normalisation *)

Lemma firstn_sorted {A : Type} (R : A -> A -> Prop) (n : nat) (l : list A) :
  StronglySorted R l -> StronglySorted R (firstn n l).
Proof.
  intros Hs. revert n. induction Hs as [|x l Hs IH Hall]; intros [|n]; simpl;
    try constructor.
  - apply IH.
  - rewrite Forall_forall in *. intros y Hy. apply Hall.
    rewrite <- (firstn_skipn n l). apply in_or_app. now left.
Qed.

Lemma sorted_app_dominates {A : Type} (R : A -> A -> Prop) (l1 l2 : list A) :
  StronglySorted R (l1 ++ l2) ->
  forall a b, In a l1 -> In b l2 -> R a b.
Proof.
  induction l1 as [|x l1 IH]; simpl; intros Hs a b Ha Hb; [contradiction|].
  apply StronglySorted_inv in Hs. destruct Hs as [Hs Hall].
  destruct Ha as [->|Ha].
  - rewrite Forall_forall in Hall. apply Hall, in_or_app. now right.
  - now apply IH.
Qed.

Lemma filter_firstn_prefix {A : Type} (p : A -> bool) (n : nat) (l : list A) :
  prefix_of (filter p (firstn n l)) (filter p l).
Proof.
  exists (filter p (skipn n l)).
  now rewrite <- filter_app, firstn_skipn.
Qed.

Lemma head_nonnegative {A : Type} (l : list A) (n : Z) :
  0 <= n -> head l n = firstn (Z.to_nat n) l.
Proof.
  intros Hn. unfold head.
  destruct (0 <=? n) eqn:E; [reflexivity|]. apply Z.leb_gt in E. lia.
Qed.

Lemma insert_desc_filter {R : Type} (key : R -> Z) (k : Z) (x : R)
  (l : list R) :
  filter (fun r => key r =? k) (insert_desc key x l)
  = filter (fun r => key r =? k) (x :: l).
Proof.
  induction l as [|y l IH]; [reflexivity|].
  simpl insert_desc. destruct (key y <=? key x) eqn:E; [reflexivity|].
  apply Z.leb_gt in E.
  change (filter (fun r => key r =? k) (y :: insert_desc key x l))
    with (if key y =? k
          then y :: filter (fun r => key r =? k) (insert_desc key x l)
          else filter (fun r => key r =? k) (insert_desc key x l)).
  rewrite IH. simpl.
  destruct (key y =? k) eqn:Ey, (key x =? k) eqn:Ex; try reflexivity.
  apply Z.eqb_eq in Ey, Ex. lia.
Qed.

(** Insertion sort keeps rows of equal key in input order. *)
Lemma stable_kind_is_stable : stable stable_kind.
Proof.
  intros R key df k. change (@sort_values_desc stable_kind R key df)
    with (stable_sort_desc key df).
  induction df as [|x l IH]; [reflexivity|].
  simpl stable_sort_desc. rewrite insert_desc_filter. simpl. now rewrite IH.
Qed.

Lemma selected_unfold (K : SortKind) (G : Type)
  (summary : list (Summary (MovieRow G))) (genre : string) (decade top : Z) :
  selected (Utils.generate_plots summary genre decade top)
  = head (sort_values_desc (@total_views _) summary) top.
Proof. reflexivity. Qed.

(** C5, counterexample.  With [top = -1], [head] drops the last row of the
    sorted summary: two of the three movies are selected, where
    min(top, available) is -1. *)
Lemma top_n_not_as_specified :
  ~ top_n_spec ties_ex (-1)
      (selected (@Utils.generate_plots stable_kind _ ties_ex "Comedy" 1990
                                       (-1))).
Proof.
  intros [Hlen _]. vm_compute in Hlen. discriminate.
Qed.

(** The contract of a descending sort does not fix the order of ties: under
    [reversing_kind] the two movies of 5 views are selected in the order
    B, A. *)
Lemma ties_follow_the_sort_kind :
  map (fun r => title (movie r))
      (selected (@Utils.generate_plots reversing_kind _ ties_ex "Comedy"
                                       1990 2))
  = [ "B"%string; "A"%string ]
  /\ ~ top_n_spec ties_ex 2
         (selected (@Utils.generate_plots reversing_kind _ ties_ex "Comedy"
                                          1990 2)).
Proof.
  split; [reflexivity|]. intros [_ [_ Hties]].
  destruct (Hties 5) as [rest Hrest]. vm_compute in Hrest. congruence.
Qed.

(** Whatever the sort kind, a negative [top] selects all rows but the last
    [-top] of the sorted summary: the sorted summary is the selection
    followed by the rows left out, which are [-top] many (all rows when the
    summary has fewer) and have no more views than any selected row. *)
Lemma selected_negative_top (K : SortKind) (G : Type)
  (summary : list (Summary (MovieRow G))) (genre : string) (decade top : Z) :
  top < 0 ->
  exists dropped : list (Summary (MovieRow G)),
    sort_values_desc (@total_views _) summary
    = selected (Utils.generate_plots summary genre decade top) ++ dropped
    /\ List.length dropped
       = Nat.min (Z.to_nat (- top)) (List.length summary)
    /\ List.length (selected (Utils.generate_plots summary genre decade top))
       = (List.length summary - Z.to_nat (- top))%nat
    /\ forall r r',
         In r (selected (Utils.generate_plots summary genre decade top)) ->
         In r' dropped -> total_views r' <= total_views r.
Proof.
  intros Htop. rewrite selected_unfold. unfold head.
  destruct (0 <=? top) eqn:E; [apply Z.leb_le in E; lia|].
  pose proof (Permutation_length (sort_values_perm (@total_views _) summary))
    as Hlen.
  pose proof (sort_values_sorted (@total_views _) summary) as Hsorted.
  revert Hlen Hsorted.
  generalize (sort_values_desc (@total_views _) summary).
  intros sorted Hlen Hsorted.
  exists (skipn (List.length sorted - Z.to_nat (- top)) sorted).
  split; [now rewrite firstn_skipn|]. split; [|split].
  - rewrite length_skipn. lia.
  - rewrite length_firstn. lia.
  - intros r r' Hr Hr'.
    apply (@sorted_app_dominates _
             (fun a b : Summary (MovieRow G) => total_views b <= total_views a)
             (firstn (List.length sorted - Z.to_nat (- top)) sorted)
             (skipn (List.length sorted - Z.to_nat (- top)) sorted));
      [now rewrite firstn_skipn | assumption | assumption].
Qed.

(** C5, as amended.  For every sort kind, aggregate summary and [top >= 0],
    [generate_plots] selects exactly min(top, number of movies) rows of the
    summary, in descending order of [total_views], none of them with fewer
    views than a row left out; the selection is a function of the summary and
    of [top]; rows of equal [total_views] are selected in input order when
    the sort kind is stable. *)
Theorem top_n_selection (K : SortKind) (G : Type)
  (summary : list (Summary (MovieRow G))) (genre : string) (decade top : Z) :
  0 <= top ->
  let sel := selected (Utils.generate_plots summary genre decade top) in
  Z.of_nat (List.length sel) = Z.min top (Z.of_nat (List.length summary))
  /\ descending (@total_views _) sel
  /\ (exists rest,
        Permutation (sel ++ rest) summary
        /\ forall r r', In r sel -> In r' rest ->
                        total_views r' <= total_views r)
  /\ (stable K -> top_n_spec summary top sel).
Proof.
  intros Htop sel. subst sel. rewrite selected_unfold, head_nonnegative by lia.
  pose proof (sort_values_perm (@total_views _) summary) as Hperm.
  pose proof (sort_values_sorted (@total_views _) summary) as Hsorted.
  assert (Hlen :
    Z.of_nat (List.length (firstn (Z.to_nat top)
                                  (sort_values_desc (@total_views _) summary)))
    = Z.min top (Z.of_nat (List.length summary))).
  { rewrite length_firstn, (Permutation_length Hperm). lia. }
  assert (Hdesc : descending (@total_views _)
                    (firstn (Z.to_nat top)
                            (sort_values_desc (@total_views _) summary)))
    by now apply firstn_sorted.
  split; [exact Hlen|]. split; [exact Hdesc|]. split.
  - exists (skipn (Z.to_nat top) (sort_values_desc (@total_views _) summary)).
    split.
    + now rewrite firstn_skipn.
    + intros r r' Hr Hr'.
      apply (@sorted_app_dominates _
               (fun a b : Summary (MovieRow G) => total_views b <= total_views a)
               (firstn (Z.to_nat top)
                       (sort_values_desc (@total_views _) summary))
               (skipn (Z.to_nat top)
                      (sort_values_desc (@total_views _) summary)));
        [now rewrite firstn_skipn | assumption | assumption].
  - intros Hstable. split; [exact Hlen|]. split; [exact Hdesc|].
    intros k. rewrite <- (Hstable _ (@total_views _) summary k).
    apply filter_firstn_prefix.
Qed.

Lemma top_n_selection_witness :
  0 <= 2
  /\ top_n_spec ties_ex 2
       (selected (@Utils.generate_plots stable_kind _ ties_ex "Comedy"
                                        1990 2)).
Proof.
  assert (Htop : 0 <= 2) by lia.
  split; [exact Htop|].
  pose proof (@top_n_selection stable_kind _ ties_ex "Comedy" 1990 2 Htop)
    as H.
  cbv zeta in H. destruct H as [_ [_ [_ H]]].
  exact (H stable_kind_is_stable).
Defined.

Lemma below_one_is_negative (a : Q) :
  (a < 1)%Q -> ((a - 1) / 4 < 0)%Q.
Proof.
  intros Ha. apply Qlt_shift_div_r; [reflexivity|].
  rewrite Qmult_0_l. apply (Qplus_lt_l _ _ 1%Q). ring_simplify. exact Ha.
Qed.

(** C9. [generate_plots] selects [head(top)] of the summary sorted by
    [total_views] and hands the colour map, for every selected movie in
    selection order, the value [(average_rating - 1) / 4], whatever the
    rating: nothing is clamped, and a rating below 1 gives a negative value.
    When the summary has at most [top] movies, every movie of the summary
    gets its value. *)
Theorem normalized_rating_unclamped (K : SortKind) (G : Type)
  (summary : list (Summary (MovieRow G))) (genre : string) (decade top : Z) :
  let plots := Utils.generate_plots summary genre decade top in
  let normalize := fun r : Summary (MovieRow G) =>
                     ((average_rating r - 1) / 4)%Q in
  selected plots = head (sort_values_desc (@total_views _) summary) top
  /\ normalized_ratings plots
     = map normalize (head (sort_values_desc (@total_views _) summary) top)
  /\ Forall2 (fun (r : Summary (MovieRow G)) (n : Q) =>
                n = ((average_rating r - 1) / 4)%Q
                /\ ((average_rating r < 1)%Q -> (n < 0)%Q))
             (selected plots) (normalized_ratings plots)
  /\ (Z.of_nat (List.length summary) <= top ->
      Permutation (normalized_ratings plots) (map normalize summary)).
Proof.
  intros plots normalize. subst plots.
  assert (Hnorm :
    normalized_ratings (Utils.generate_plots summary genre decade top)
    = map normalize (head (sort_values_desc (@total_views _) summary) top)).
  { unfold Utils.generate_plots, normalized_ratings, div_scalar, sub_scalar,
      col. now rewrite !map_map. }
  split; [apply selected_unfold|]. split; [exact Hnorm|]. split.
  - rewrite Hnorm, selected_unfold.
    generalize (head (sort_values_desc (@total_views _) summary) top).
    intros sel. induction sel as [|r sel IH]; simpl; constructor.
    + split; [reflexivity|]. apply below_one_is_negative.
    + exact IH.
  - intros Htop. rewrite Hnorm. apply Permutation_map.
    rewrite head_nonnegative by lia. rewrite firstn_all2.
    + apply sort_values_perm.
    + rewrite (Permutation_length
                 (sort_values_perm (@total_views _) summary)). lia.
Qed.

(** The movie of rating 1/2 in the sample summary is drawn with the value
    -1/8. *)
Example normalized_rating_negative :
  normalized_ratings
    (@Utils.generate_plots stable_kind _ ties_ex "Drama" 1990 3)
  = [ (3 # 4)%Q; (2 # 4)%Q; (-1 # 8)%Q ].
Proof. reflexivity. Qed.

(* ================================================================== *)
(** * Further properties of the filter module *)

Lemma filters_production_unfold {G : Type} (df : list (MovieRow G))
  (p1 p2 : Z) :
  Filters.filter_production_date df p1 p2
  = filter (fun m => in_interval p1 p2 (movie_year m)) df.
Proof. unfold Filters.filter_production_date. apply loc_interval_mask. Qed.

Lemma utils_production_unfold {G : Type} (df : list (MovieRow G))
  (p1 p2 : Z) :
  Utils.filter_production_date df p1 p2
  = filter (fun m => in_interval p1 p2 (movie_year m)) df.
Proof. unfold Utils.filter_production_date. apply loc_interval_mask. Qed.

Lemma in_interval_meet (a b c d x : Z) :
  (in_interval a b x && in_interval c d x)%bool
  = in_interval (Z.max a c) (Z.min b d) x.
Proof.
  apply eq_true_iff_eq.
  rewrite andb_true_iff, !in_interval_iff. lia.
Qed.

Lemma filter_interval_twice {R : Type} (f : R -> Z) (a b c d : Z)
  (l : list R) :
  filter (fun r => in_interval c d (f r))
         (filter (fun r => in_interval a b (f r)) l)
  = filter (fun r => in_interval (Z.max a c) (Z.min b d) (f r)) l.
Proof.
  rewrite filter_filter_and. apply filter_ext. intros r.
  apply in_interval_meet.
Qed.

(** Filtering a filtered catalog by a second range of years is filtering the
    catalog once by the intersection of the two ranges, row order included. *)
Theorem filter_production_date_compose (G : Type) (df : list (MovieRow G))
  (a b c d : Z) :
  Filters.filter_production_date (Filters.filter_production_date df a b) c d
  = Filters.filter_production_date df (Z.max a c) (Z.min b d)
  /\ Utils.filter_production_date (Utils.filter_production_date df a b) c d
     = Utils.filter_production_date df (Z.max a c) (Z.min b d).
Proof.
  split.
  - rewrite !filters_production_unfold. apply filter_interval_twice.
  - rewrite !utils_production_unfold. apply filter_interval_twice.
Qed.

Lemma filter_disjoint_union {A : Type} (p q pq : A -> bool) (l : list A) :
  (forall x, pq x = (p x || q x)%bool) ->
  (forall x, p x = true -> q x = false) ->
  Permutation (filter p l ++ filter q l) (filter pq l).
Proof.
  intros Hpq Hdis. induction l as [|x l IH]; simpl; [constructor|].
  rewrite Hpq. destruct (p x) eqn:Ep; simpl.
  - rewrite (Hdis x Ep). now apply perm_skip.
  - destruct (q x).
    + apply Permutation_sym, Permutation_cons_app, Permutation_sym, IH.
    + exact IH.
Qed.

(** Two adjacent ranges of years split the rows of their union: every row
    of [a, c] is in exactly one of the results for [a, b] and [b + 1, c]. *)
Theorem filter_production_date_adjacent (G : Type) (df : list (MovieRow G))
  (a b c : Z) :
  a <= b + 1 -> b <= c ->
  Permutation
    (Utils.filter_production_date df a b
     ++ Utils.filter_production_date df (b + 1) c)
    (Utils.filter_production_date df a c)
  /\ (forall m, In m (Utils.filter_production_date df a b) ->
                ~ In m (Utils.filter_production_date df (b + 1) c))
  /\ (List.length (Utils.filter_production_date df a b)
      + List.length (Utils.filter_production_date df (b + 1) c)
      = List.length (Utils.filter_production_date df a c))%nat.
Proof.
  intros Hab Hbc. rewrite !utils_production_unfold.
  assert (Hperm :
    Permutation
      (filter (fun m : MovieRow G => in_interval a b (movie_year m)) df
       ++ filter (fun m : MovieRow G => in_interval (b + 1) c (movie_year m))
                 df)
      (filter (fun m : MovieRow G => in_interval a c (movie_year m)) df)).
  { apply filter_disjoint_union.
    - intros m. apply eq_true_iff_eq.
      rewrite orb_true_iff, !in_interval_iff. lia.
    - intros m Hm. apply in_interval_iff in Hm.
      destruct (in_interval (b + 1) c (movie_year m)) eqn:E; [|reflexivity].
      apply in_interval_iff in E. lia. }
  split; [exact Hperm|]. split.
  - intros m H1 H2. apply filter_In in H1, H2.
    destruct H1 as [_ H1], H2 as [_ H2].
    apply in_interval_iff in H1, H2. lia.
  - rewrite <- length_app. now apply Permutation_length.
Qed.

Lemma filter_production_date_adjacent_witness :
  1980 <= 1989 + 1 /\ 1989 <= 1999
  /\ Permutation
       (Utils.filter_production_date decades_ex 1980 1989
        ++ Utils.filter_production_date decades_ex (1989 + 1) 1999)
       (Utils.filter_production_date decades_ex 1980 1999).
Proof.
  assert (H1 : 1980 <= 1989 + 1) by lia.
  assert (H2 : 1989 <= 1999) by lia.
  split; [exact H1|]. split; [exact H2|].
  exact (proj1 (@filter_production_date_adjacent _ decades_ex 1980 1989 1999
                  H1 H2)).
Defined.

(** Filtering a filtered ratings table by a second interval gives the
    records of the intersection of the two intervals, each as often as in
    the table. *)
Theorem filter_time_interval_compose (K : SortKind) (df : list Rating)
  (a b c d : Z) :
  Permutation
    (Filters.filter_time_interval (Filters.filter_time_interval df a b) c d)
    (Filters.filter_time_interval df (Z.max a c) (Z.min b d))
  /\ Permutation
       (Utils.filter_time_interval (Utils.filter_time_interval df a b) c d)
       (Utils.filter_time_interval df (Z.max a c) (Z.min b d)).
Proof.
  assert (H : Permutation
    (sort_values_desc datetime_rating
       (filter (fun r => in_interval c d (datetime_rating r))
          (sort_values_desc datetime_rating
             (filter (fun r => in_interval a b (datetime_rating r)) df))))
    (sort_values_desc datetime_rating
       (filter (fun r => in_interval (Z.max a c) (Z.min b d)
                                     (datetime_rating r)) df))).
  { eapply perm_trans; [apply sort_values_perm|].
    eapply perm_trans; [apply filter_permutation, sort_values_perm|].
    rewrite filter_interval_twice. apply Permutation_sym, sort_values_perm. }
  split.
  - rewrite !filters_time_interval_unfold. exact H.
  - rewrite !utils_time_interval_unfold. exact H.
Qed.

(** An interval whose end precedes its start selects nothing: the result is
    the empty frame, not an error. *)
Theorem filter_time_interval_reversed_bounds (K : SortKind)
  (df : list Rating) (s e : Z) :
  e < s ->
  Filters.filter_time_interval df s e = []
  /\ Utils.filter_time_interval df s e = [].
Proof.
  intros Hes.
  assert (H : sort_values_desc datetime_rating
                (filter (fun r => in_interval s e (datetime_rating r)) df)
              = []).
  { apply permutation_of_nil.
    pose proof (sort_values_perm datetime_rating
                  (filter (fun r => in_interval s e (datetime_rating r)) df))
      as Hperm.
    rewrite (@filter_nothing _ (fun r => in_interval s e (datetime_rating r)))
      in Hperm at 2; [exact Hperm|].
    intros r _. now apply in_interval_empty. }
  split.
  - rewrite filters_time_interval_unfold. exact H.
  - rewrite utils_time_interval_unfold. exact H.
Qed.

Lemma filter_time_interval_reversed_bounds_witness :
  100 < 300
  /\ @Filters.filter_time_interval stable_kind ratings_ex 300 100 = []
  /\ @Utils.filter_time_interval stable_kind ratings_ex 300 100 = [].
Proof.
  assert (H : 100 < 300) by lia.
  split; [exact H|].
  exact (@filter_time_interval_reversed_bounds stable_kind ratings_ex 300 100
           H).
Defined.

(** A frame in descending key order is determined by the rows it holds for
    each key, in their order. *)
Lemma descending_determined {R : Type} (key : R -> Z) (l1 l2 : list R) :
  descending key l1 -> descending key l2 ->
  (forall k, filter (fun r => key r =? k) l1
             = filter (fun r => key r =? k) l2) ->
  l1 = l2.
Proof.
  unfold descending. intros H1. revert l2.
  induction H1 as [|x l1 H1 IH Hx]; intros l2 H2 Heq.
  - destruct l2 as [|y l2]; [reflexivity|].
    specialize (Heq (key y)). simpl in Heq. rewrite Z.eqb_refl in Heq.
    discriminate.
  - destruct H2 as [|y l2 H2 Hy].
    + specialize (Heq (key x)). simpl in Heq. rewrite Z.eqb_refl in Heq.
      discriminate.
    + assert (Hxy : key x <= key y).
      { pose proof (Heq (key x)) as E. simpl in E.
        rewrite Z.eqb_refl in E.
        assert (Hin : In x (if key y =? key x
                            then y :: filter (fun r => key r =? key x) l2
                            else filter (fun r => key r =? key x) l2))
          by (rewrite <- E; now left).
        destruct (key y =? key x) eqn:Eyx.
        - apply Z.eqb_eq in Eyx. lia.
        - apply filter_In in Hin. destruct Hin as [Hin _].
          rewrite Forall_forall in Hy. now apply Hy. }
      assert (Hyx : key y <= key x).
      { pose proof (Heq (key y)) as E. simpl in E.
        rewrite Z.eqb_refl in E.
        assert (Hin : In y (if key x =? key y
                            then x :: filter (fun r => key r =? key y) l1
                            else filter (fun r => key r =? key y) l1))
          by (rewrite E; now left).
        destruct (key x =? key y) eqn:Exy.
        - apply Z.eqb_eq in Exy. lia.
        - apply filter_In in Hin. destruct Hin as [Hin _].
          rewrite Forall_forall in Hx. now apply Hx. }
      assert (Hk : key y = key x) by lia.
      pose proof (Heq (key x)) as E. simpl in E.
      rewrite Hk, Z.eqb_refl in E. injection E as -> _.
      f_equal. apply IH; [assumption|]. intros k.
      specialize (Heq k). simpl in Heq.
      destruct (key y =? k); [now injection Heq | exact Heq].
Qed.

(** Under a stable sort kind, filtering the result of [filter_time_interval]
    again with the same interval returns that result unchanged, row order
    included. *)
Theorem filter_time_interval_fixpoint (K : SortKind) (df : list Rating)
  (s e : Z) :
  stable K ->
  Filters.filter_time_interval (Filters.filter_time_interval df s e) s e
  = Filters.filter_time_interval df s e
  /\ Utils.filter_time_interval (Utils.filter_time_interval df s e) s e
     = Utils.filter_time_interval df s e.
Proof.
  intros Hstable.
  set (p := fun r => in_interval s e (datetime_rating r)).
  set (once := sort_values_desc datetime_rating (filter p df)).
  assert (Hkeep : filter p once = once).
  { apply forallb_filter_id, forallb_forall. intros r Hr.
    apply (Permutation_in _ (sort_values_perm datetime_rating (filter p df)))
      in Hr.
    now apply filter_In in Hr. }
  assert (H : sort_values_desc datetime_rating (filter p once) = once).
  { rewrite Hkeep. apply (@descending_determined _ datetime_rating).
    - apply sort_values_sorted.
    - apply sort_values_sorted.
    - intros k. apply Hstable. }
  split.
  - rewrite !filters_time_interval_unfold. exact H.
  - rewrite !utils_time_interval_unfold. exact H.
Qed.

Lemma filter_time_interval_fixpoint_witness :
  stable stable_kind
  /\ @Utils.filter_time_interval stable_kind
       (@Utils.filter_time_interval stable_kind ratings_ex 100 300) 100 300
     = @Utils.filter_time_interval stable_kind ratings_ex 100 300.
Proof.
  split; [exact stable_kind_is_stable|].
  exact (proj2 (@filter_time_interval_fixpoint stable_kind ratings_ex 100 300
                  stable_kind_is_stable)).
Defined.

(** The copies of the two filters in [filters.py] and in [utils.py] return
    the same frame on every input. *)
Theorem filter_copies_agree (K : SortKind) (G : Type) (df : list Rating)
  (movies_df : list (MovieRow G)) (a b : Z) :
  Filters.filter_time_interval df a b = Utils.filter_time_interval df a b
  /\ Filters.filter_production_date movies_df a b
     = Utils.filter_production_date movies_df a b.
Proof. split; reflexivity. Qed.

(* ================================================================== *)
(** * Further properties of the aggregation module *)

(** [get_tags_per_movieId] returns the list of the tags of the records of
    that movie, one per record, in table order.  So a tag is returned
    exactly when a record of the movie holds it, the result is empty exactly
    when the movie has no record, and a table appended to another adds its
    tags at the end. *)
Theorem get_tags_per_movieId_records (m : Z) (tags_df more : list Tag) :
  Utils.get_tags_per_movieId m tags_df
  = map tag (filter (fun rec => tag_movieId rec =? m) tags_df)
  /\ (forall t : string,
        In t (Utils.get_tags_per_movieId m tags_df)
        <-> exists rec, In rec tags_df /\ tag_movieId rec = m /\ tag rec = t)
  /\ (Utils.get_tags_per_movieId m tags_df = []
      <-> forall rec, In rec tags_df -> tag_movieId rec <> m)
  /\ Utils.get_tags_per_movieId m (tags_df ++ more)
     = Utils.get_tags_per_movieId m tags_df
       ++ Utils.get_tags_per_movieId m more.
Proof.
  split; [apply get_tags_per_movieId_filter|].
  rewrite !get_tags_per_movieId_filter. split; [|split].
  - intros t. rewrite in_map_iff. split.
    + intros [rec [Ht Hrec]]. apply filter_In in Hrec.
      destruct Hrec as [Hin Hm]. apply Z.eqb_eq in Hm. eauto.
    + intros [rec [Hin [Hm Ht]]]. exists rec. split; [assumption|].
      apply filter_In. split; [assumption | now apply Z.eqb_eq].
  - split.
    + intros Hnil rec Hin Hm.
      assert (Hrec : In (tag rec)
                        (map tag (filter (fun t => tag_movieId t =? m)
                                         tags_df))).
      { apply in_map, filter_In. split; [assumption | now apply Z.eqb_eq]. }
      rewrite Hnil in Hrec. contradiction.
    + intros Hnone. rewrite filter_nothing; [reflexivity|].
      intros rec Hin. apply Z.eqb_neq. now apply Hnone.
  - now rewrite filter_app, map_app.
Qed.

(** [aggregate_data] has two outcomes only.  It returns the empty frame
    exactly when no catalog movie has a rating in [df], and raises
    [TypeError] (at the tag lookup) exactly when some catalog movie has
    one; it never returns a frame with a row. *)
Theorem aggregate_data_outcomes (M : Type) (HM : MovieIdCol M)
  (df : list Rating) (movies_df : list M) :
  (Utils.aggregate_data df movies_df = Ok []
   <-> forall m r, In m movies_df -> In r df ->
                   rating_movieId r <> movieId m)
  /\ (Utils.aggregate_data df movies_df
      = Raise (TypeError "get_tags_per_movieId" ["tags_df"%string])
      <-> exists m r, In m movies_df /\ In r df
                      /\ rating_movieId r = movieId m)
  /\ (forall out, Utils.aggregate_data df movies_df = Ok out -> out = []).
Proof.
  assert (Hjoined : forall m r, In m movies_df -> In r df ->
                      rating_movieId r = movieId m ->
                      Utils.aggregate_data df movies_df
                      = Raise (TypeError "get_tags_per_movieId"
                                         ["tags_df"%string])).
  { intros m r. apply aggregate_data_raises_when_joined. }
  assert (Hrow : Utils.merged df movies_df <> [] ->
                 exists m r, In m movies_df /\ In r df
                             /\ rating_movieId r = movieId m).
  { destruct (Utils.merged df movies_df) as [|[[m v] a] rows] eqn:E;
      [congruence|]. intros _.
    assert (Hin : In (m, v, a) (Utils.merged df movies_df))
      by (rewrite E; now left).
    apply merged_In in Hin. destruct Hin as [Hm [Hne _]].
    apply group_nonempty, group_keys_In in Hne.
    destruct Hne as [r [Hr Hid]]. exists m, r. tauto. }
  split; [|split].
  - split.
    + intros Hok m r Hm Hr Hid.
      rewrite (Hjoined m r Hm Hr Hid) in Hok. discriminate.
    + intros Hnone. rewrite aggregate_data_outcome.
      destruct (Utils.merged df movies_df) eqn:E; [reflexivity|].
      destruct Hrow as [m [r [Hm [Hr Hid]]]]; [congruence|].
      now elim (Hnone m r Hm Hr).
  - split.
    + rewrite aggregate_data_outcome.
      destruct (Utils.merged df movies_df) eqn:E; [discriminate|].
      intros _. apply Hrow. congruence.
    + intros [m [r [Hm [Hr Hid]]]]. now apply (Hjoined m r).
  - apply aggregate_data_returns_no_row.
Qed.

(** The ratings of one movie. *)
Lemma group_unfold (df : list Rating) (k : Z) :
  group df k = filter (fun r => rating_movieId r =? k) df.
Proof. reflexivity. Qed.

Lemma rated_in_group_keys (df : list Rating) (k : Z) :
  (if in_dec Z.eq_dec k (group_keys df) then true else false)
  = existsb (fun r => rating_movieId r =? k) df.
Proof.
  apply eq_true_iff_eq. rewrite existsb_exists. split.
  - destruct (in_dec Z.eq_dec k (group_keys df)) as [Hin|]; [|discriminate].
    intros _. apply group_keys_In in Hin. destruct Hin as [r [Hr Hk]].
    exists r. split; [assumption | now apply Z.eqb_eq].
  - intros [r [Hr Hk]]. apply Z.eqb_eq in Hk.
    destruct (in_dec Z.eq_dec k (group_keys df)) as [|Hout]; [reflexivity|].
    elim Hout. apply group_keys_In. eauto.
Qed.

(** Inner join: the merged frame has one row for each catalog row whose
    movie is rated, in catalog order; a catalog row is never duplicated,
    however many ratings its movie has, and the frame is never longer than
    the catalog. *)
Theorem merged_keeps_catalog_order (M : Type) (HM : MovieIdCol M)
  (df : list Rating) (movies_df : list M) :
  map (fun row : M * Z * Q => fst (fst row)) (Utils.merged df movies_df)
  = filter (fun m => existsb (fun r => rating_movieId r =? movieId m) df)
           movies_df
  /\ (List.length (Utils.merged df movies_df) <= List.length movies_df)%nat.
Proof.
  assert (Hcol :
    map (fun row : M * Z * Q => fst (fst row)) (Utils.merged df movies_df)
    = filter (fun m => existsb (fun r => rating_movieId r =? movieId m) df)
             movies_df).
  { rewrite merged_movie_column. apply filter_ext. intros m.
    apply rated_in_group_keys. }
  split; [exact Hcol|].
  rewrite <- (length_map (fun row : M * Z * Q => fst (fst row))), Hcol.
  apply filter_length_le.
Qed.

(** The movie and [total_views] columns of the frame [aggregate_data]
    builds with its two merges: one row for each catalog row whose movie has
    a rating in [df], in catalog order, with [total_views] the number of the
    ratings of that movie, which is at least 1. *)
Theorem merged_rows (M : Type) (HM : MovieIdCol M) (df : list Rating)
  (movies_df : list M) :
  map (fun row : M * Z * Q => fst row) (Utils.merged df movies_df)
  = map (fun m =>
           (m, Z.of_nat
                 (List.length
                    (filter (fun r => rating_movieId r =? movieId m) df))))
        (filter (fun m => existsb (fun r => rating_movieId r =? movieId m) df)
                movies_df)
  /\ forall m views avg,
       In (m, views, avg) (Utils.merged df movies_df) -> 1 <= views.
Proof.
  split.
  - rewrite <- (filter_ext
                  (fun m => if in_dec Z.eq_dec (movieId m) (group_keys df)
                            then true else false)
                  (fun m => existsb (fun r => rating_movieId r =? movieId m)
                                    df)
                  (fun m => rated_in_group_keys df (movieId m)) movies_df).
    unfold Utils.merged, merge, groupby_count, groupby_mean.
    induction movies_df as [|m movies_df IH]; [reflexivity|].
    simpl flat_map. rewrite flat_map_app, map_app, IH. simpl filter.
    rewrite (lookup_group_entry _ (movieId m) (group_keys_NoDup df)).
    destruct (in_dec Z.eq_dec (movieId m) (group_keys df)) as [Hin|Hout];
      [|reflexivity].
    simpl. rewrite app_nil_r.
    change (movieId (m, Z.of_nat (List.length (group df (movieId m)))))
      with (movieId m).
    rewrite (lookup_group_entry _ (movieId m) (group_keys_NoDup df)).
    destruct (in_dec Z.eq_dec (movieId m) (group_keys df)); [|contradiction].
    reflexivity.
  - intros m views avg Hin. apply merged_In in Hin.
    destruct Hin as [_ [Hne [-> _]]].
    destruct (group df (movieId m)); [congruence|]. simpl List.length. lia.
Qed.

Lemma mean_singleton (x : Q) : (mean [x] == x)%Q.
Proof.
  unfold mean, Qsum. simpl. unfold Qeq, Qdiv, Qmult, Qplus, Qinv, inject_Z.
  simpl. lia.
Qed.

(** A catalog movie with exactly one rating in [df] has, in the merged
    frame, [total_views] 1 and that rating as its [average_rating]. *)
Theorem merged_single_rating (M : Type) (HM : MovieIdCol M)
  (df : list Rating) (movies_df : list M) (m : M) (r : Rating) :
  In m movies_df ->
  filter (fun x => rating_movieId x =? movieId m) df = [r] ->
  (exists avg, In (m, 1, avg) (Utils.merged df movies_df)
               /\ (avg == rating r)%Q)
  /\ forall views avg,
       In (m, views, avg) (Utils.merged df movies_df) ->
       views = 1 /\ (avg == rating r)%Q.
Proof.
  intros Hm Hone.
  assert (Hgroup : group df (movieId m) = [r]) by exact Hone.
  split.
  - exists (mean [rating r]). split; [|apply mean_singleton].
    apply merged_In. rewrite Hgroup. repeat split; try assumption.
    discriminate.
  - intros views avg Hin. apply merged_In in Hin. rewrite Hgroup in Hin.
    destruct Hin as [_ [_ [-> ->]]]. split; [reflexivity|].
    apply mean_singleton.
Qed.

Lemma merged_single_rating_witness :
  In (mkMovie 2 "B" 1991 ["Drama"%string]) movies_ex
  /\ filter (fun x => rating_movieId x
                      =? movieId (mkMovie 2 "B" 1991 ["Drama"%string]))
            ratings_ex
     = [ mkRating 2 2 (3#1) 300 ]
  /\ exists avg,
       In (mkMovie 2 "B" 1991 ["Drama"%string], 1, avg)
          (Utils.merged ratings_ex movies_ex)
       /\ (avg == 3 # 1)%Q.
Proof.
  assert (Hm : In (mkMovie 2 "B" 1991 ["Drama"%string]) movies_ex)
    by (right; now left).
  assert (Hone : filter (fun x => rating_movieId x
                                  =? movieId (mkMovie 2 "B" 1991
                                                      ["Drama"%string]))
                        ratings_ex
                 = [ mkRating 2 2 (3#1) 300 ]) by reflexivity.
  split; [exact Hm|]. split; [exact Hone|].
  exact (proj1 (@merged_single_rating Movie _ ratings_ex movies_ex
                  (mkMovie 2 "B" 1991 ["Drama"%string])
                  (mkRating 2 2 (3#1) 300) Hm Hone)).
Defined.

(* ================================================================== *)
(** * Further properties of the orchestrator *)

Lemma bool_mask_none (f : string -> bool) (cells : list (option string)) :
  bool_mask (map (option_map f) cells) = None <-> In None cells.
Proof.
  induction cells as [|c cells IH]; simpl.
  - split; [discriminate | contradiction].
  - destruct c as [s|]; simpl.
    + destruct (bool_mask (map (option_map f) cells)); simpl.
      * split; [discriminate|]. intros [H|H]; [discriminate|].
        apply IH in H. discriminate.
      * split; [|reflexivity]. intros _. right. now apply IH.
    + split; [now left | reflexivity].
Qed.

Lemma explode_nan (l : list Movie) :
  In None (col (@genres _) (explode l))
  <-> exists m, In m l /\ genres m = [].
Proof.
  unfold col, explode. rewrite in_map_iff. split.
  - intros [r [Hr Hin]]. apply in_flat_map in Hin.
    destruct Hin as [m [Hm Hrow]]. exists m. split; [assumption|].
    unfold explode_row in Hrow. destruct (genres m) as [|g gs];
      [reflexivity|].
    apply in_map_iff in Hrow. destruct Hrow as [g' [<- _]]. discriminate.
  - intros [m [Hm Hg]].
    exists (mkMovie (movie_movieId m) (title m) (movie_year m) None).
    split; [reflexivity|]. apply in_flat_map. exists m.
    split; [assumption|]. unfold explode_row. rewrite Hg. now left.
Qed.

(** For a genre made of literal characters and dots, the genre filter has
    two outcomes only: it raises [ValueError] exactly when some movie of the
    decade has an empty genre list, and returns a frame otherwise. *)
Theorem closest_match_filter_empty_genre_list (g : string) (y : Z)
  (catalog : list Movie) :
  re_compile g <> None ->
  (Utils.closest_match_filter g y catalog
   = Raise (ValueError
              "Cannot mask with non-boolean array containing NA / NaN values")
   <-> exists m, In m catalog
                 /\ y / 10 * 10 <= movie_year m <= y / 10 * 10 + 9
                 /\ genres m = [])
  /\ ((exists rows, Utils.closest_match_filter g y catalog = Ok rows)
      <-> forall m, In m catalog ->
                    y / 10 * 10 <= movie_year m <= y / 10 * 10 + 9 ->
                    genres m <> []).
Proof.
  intros Hre. destruct (re_compile g) as [re|] eqn:E; [clear Hre|congruence].
  unfold Utils.closest_match_filter, str_contains. rewrite E. cbn [bind].
  rewrite utils_production_unfold. unfold getitem_mask.
  set (rows := explode
                 (filter (fun m : MovieRow (list string) =>
                            in_interval (y / 10 * 10) (y / 10 * 10 + 9)
                                        (movie_year m)) catalog)).
  assert (Hnan : In None (col (@genres _) rows)
                 <-> exists m, In m catalog
                       /\ y / 10 * 10 <= movie_year m <= y / 10 * 10 + 9
                       /\ genres m = []).
  { unfold rows. rewrite explode_nan. split.
    - intros [m [Hm Hg]]. apply filter_In in Hm. destruct Hm as [Hm Hy].
      apply in_interval_iff in Hy. eauto.
    - intros [m [Hm [Hy Hg]]]. exists m. split; [|assumption].
      apply filter_In. split; [assumption | now apply in_interval_iff]. }
  pose proof (bool_mask_none (re_search re) (col (@genres _) rows)) as Hmask.
  fold (col (option_map (re_search re)) (col (@genres _) rows)) in Hmask.
  unfold col at 1 in Hmask.
  destruct (bool_mask (map (option_map (re_search re))
                           (col (@genres _) rows))) as [mask|].
  - split.
    + split; [discriminate|]. intros Hex. apply Hnan, Hmask in Hex.
      discriminate.
    + split.
      * intros _ m Hm Hy Hg.
        assert (Hex : In None (col (@genres _) rows)) by (apply Hnan; eauto).
        apply Hmask in Hex. discriminate.
      * intros _. eauto.
  - split.
    + split; [|reflexivity]. intros _. now apply Hnan, Hmask.
    + split.
      * intros [out Hout]. discriminate.
      * intros Hall. assert (Hex : In None (col (@genres _) rows))
          by now apply Hmask.
        apply Hnan in Hex. destruct Hex as [m [Hm [Hy Hg]]].
        now elim (Hall m Hm Hy).
Qed.

Lemma closest_match_filter_empty_genre_list_witness :
  re_compile "Comedy" <> None
  /\ (Utils.closest_match_filter "Comedy" 1990 no_genre_ex
      = Raise (ValueError
                 "Cannot mask with non-boolean array containing NA / NaN values")
      <-> exists m, In m no_genre_ex
                    /\ 1990 / 10 * 10 <= movie_year m <= 1990 / 10 * 10 + 9
                    /\ genres m = []).
Proof.
  assert (Hre : re_compile "Comedy" <> None) by discriminate.
  split; [exact Hre|].
  exact (proj1 (@closest_match_filter_empty_genre_list "Comedy" 1990
                  no_genre_ex Hre)).
Defined.

(** The decade bucket.  Every production year of the decade of [y] selects
    the same rows and has the same outcome as [y] itself, and a catalog
    movie produced in the year [y] passes the production filter of the
    decade, for negative years too. *)
Theorem closest_match_same_decade (K : SortKind) (g : string) (y y' : Z)
  (catalog : list Movie) :
  y / 10 * 10 <= y' <= y / 10 * 10 + 9 ->
  Utils.closest_match_filter g y' catalog
  = Utils.closest_match_filter g y catalog
  /\ Utils.find_closest_match_ut g y' catalog
     = Utils.find_closest_match_ut g y catalog
  /\ forall m, In m catalog -> movie_year m = y' ->
               In m (Utils.filter_production_date catalog (y / 10 * 10)
                                                  (y / 10 * 10 + 9)).
Proof.
  intros Hy. assert (Hdiv : y' / 10 = y / 10).
  { revert Hy. generalize (y / 10). intros q Hq. symmetry.
    apply (Z.div_unique y' 10 q (y' - q * 10)); lia. }
  split; [|split].
  - unfold Utils.closest_match_filter. now rewrite Hdiv.
  - unfold Utils.find_closest_match_ut. now rewrite Hdiv.
  - intros m Hm Hyear. rewrite utils_production_unfold. apply filter_In.
    split; [assumption|]. apply in_interval_iff. lia.
Qed.

Lemma closest_match_same_decade_witness :
  1990 / 10 * 10 <= 1997 <= 1990 / 10 * 10 + 9
  /\ Utils.closest_match_filter "Drama" 1997 decades_ex
     = Utils.closest_match_filter "Drama" 1990 decades_ex.
Proof.
  assert (H : 1990 / 10 * 10 <= 1997 <= 1990 / 10 * 10 + 9)
    by (vm_compute; split; discriminate).
  split; [exact H|].
  exact (proj1 (@closest_match_same_decade stable_kind "Drama" 1990 1997
                  decades_ex H)).
Defined.

(** The empty genre string matches every genre: the genre filter then keeps
    all the rows of the decade, one per genre. *)
Theorem closest_match_empty_genre_string (y : Z) (catalog : list Movie) :
  (forall m, In m catalog ->
             y / 10 * 10 <= movie_year m <= y / 10 * 10 + 9 ->
             genres m <> []) ->
  Utils.closest_match_filter "" y catalog
  = Ok (explode (Utils.filter_production_date catalog (y / 10 * 10)
                                              (y / 10 * 10 + 9))).
Proof.
  intros Hgenres.
  rewrite (@closest_match_filter_plain "" y catalog eq_refl Hgenres).
  rewrite utils_production_unfold,
    (@explode_after_year_filter _ _ _ Hgenres).
  unfold spec_filtered_subset. apply f_equal. apply filter_ext_in.
  intros r Hr. apply in_flat_map in Hr. destruct Hr as [m [_ Hr]].
  unfold one_row_per_genre in Hr. apply in_map_iff in Hr.
  destruct Hr as [s [<- _]]. unfold genre_contains. simpl genres.
  destruct s; simpl; now rewrite andb_true_r.
Qed.

Lemma closest_match_empty_genre_string_witness :
  (forall m, In m romcom_ex ->
             1990 / 10 * 10 <= movie_year m <= 1990 / 10 * 10 + 9 ->
             genres m <> [])
  /\ Utils.closest_match_filter "" 1990 romcom_ex
     = Ok (explode (Utils.filter_production_date romcom_ex (1990 / 10 * 10)
                                                 (1990 / 10 * 10 + 9))).
Proof.
  assert (Hg : forall m, In m romcom_ex ->
                 1990 / 10 * 10 <= movie_year m <= 1990 / 10 * 10 + 9 ->
                 genres m <> []).
  { intros m [<-|[]] _. discriminate. }
  split; [exact Hg|].
  exact (@closest_match_empty_genre_string 1990 romcom_ex Hg).
Defined.

(** [find_closest_match_ut], in [utils.py] and in [inisight.py], raises on
    every input: the exception of the genre filter when that fails, and
    otherwise [TypeError] for the argument [movies_df] that the call of
    [aggregate_data] leaves out.  No plot is drawn and no pair returned. *)
Theorem find_closest_match_ut_always_raises (K : SortKind) (genre : string)
  (prod_year : Z) (dataset : list Movie) :
  exists e : exn,
    Utils.find_closest_match_ut genre prod_year dataset = Raise e
    /\ Inisight.find_closest_match_ut genre prod_year dataset = Raise e
    /\ (Utils.closest_match_filter genre prod_year dataset = Raise e
        \/ (exists rows,
              Utils.closest_match_filter genre prod_year dataset = Ok rows)
           /\ e = TypeError "aggregate_data" ["movies_df"%string]).
Proof.
  change (Inisight.find_closest_match_ut genre prod_year dataset)
    with (Utils.find_closest_match_ut genre prod_year dataset).
  rewrite find_closest_match_ut_outcome.
  destruct (Utils.closest_match_filter genre prod_year dataset) as [rows|e].
  - exists (TypeError "aggregate_data" ["movies_df"%string]).
    split; [reflexivity|]. split; [reflexivity|]. right. eauto.
  - exists e. auto.
Qed.

(* ================================================================== *)
(** * Further properties of the presentation module *)

Lemma selected_negative_top_witness :
  -2 < 0
  /\ exists dropped : list (Summary Movie),
       @sort_values_desc stable_kind _ (@total_views _) rated_ex
       = selected (@Utils.generate_plots stable_kind _ rated_ex "Drama" 1990
                                         (-2))
         ++ dropped
       /\ List.length dropped
          = Nat.min (Z.to_nat (- -2)) (List.length rated_ex).
Proof.
  assert (H : -2 < 0) by lia.
  split; [exact H|].
  destruct (@selected_negative_top stable_kind _ rated_ex "Drama" 1990 (-2) H)
    as [dropped [Hsplit [Hlen _]]].
  exists dropped. split; [exact Hsplit | exact Hlen].
Defined.

Lemma head_In {A : Type} (l : list A) (n : Z) (x : A) :
  In x (head l n) -> In x l.
Proof.
  unfold head. destruct (0 <=? n); intros Hin.
  - rewrite <- (firstn_skipn (Z.to_nat n) l). apply in_or_app. now left.
  - rewrite <- (firstn_skipn (List.length l - Z.to_nat (- n)) l).
    apply in_or_app. now left.
Qed.

Lemma selected_In (K : SortKind) (G : Type)
  (summary : list (Summary (MovieRow G))) (genre : string) (decade top : Z)
  (r : Summary (MovieRow G)) :
  In r (selected (Utils.generate_plots summary genre decade top)) ->
  In r summary.
Proof.
  rewrite selected_unfold. intros Hin. apply head_In in Hin.
  now apply (Permutation_in _ (sort_values_perm (@total_views _) summary)).
Qed.

(** When the summary has at most [top] movies, all of them are selected;
    with the default [top] of 20 that is every summary of up to 20 movies.
    With [top = 0] none is. *)
Theorem top_n_selects_all (K : SortKind) (G : Type)
  (summary : list (Summary (MovieRow G))) (genre : string) (decade top : Z) :
  Z.of_nat (List.length summary) <= top ->
  Permutation (selected (Utils.generate_plots summary genre decade top))
              summary
  /\ selected (Utils.generate_plots summary genre decade 0) = [].
Proof.
  intros Htop. rewrite !selected_unfold. split.
  - rewrite head_nonnegative by lia. rewrite firstn_all2.
    + apply sort_values_perm.
    + rewrite (Permutation_length
                 (sort_values_perm (@total_views _) summary)). lia.
  - reflexivity.
Qed.

Lemma top_n_selects_all_witness :
  Z.of_nat (List.length rated_ex) <= Utils.default_top
  /\ Permutation
       (selected (@Utils.generate_plots reversing_kind _ rated_ex "Drama"
                                        1990 Utils.default_top))
       rated_ex.
Proof.
  assert (H : Z.of_nat (List.length rated_ex) <= Utils.default_top)
    by (vm_compute; discriminate).
  split; [exact H|].
  exact (proj1 (@top_n_selects_all reversing_kind _ rated_ex "Drama" 1990
                  Utils.default_top H)).
Defined.

Lemma unit_interval (a : Q) :
  (1 <= a <= 5)%Q -> (0 <= (a - 1) / 4 <= 1)%Q.
Proof.
  intros [Hlo Hhi]. split.
  - apply Qle_shift_div_l; [reflexivity|]. rewrite Qmult_0_l.
    apply (Qplus_le_l _ _ 1%Q). ring_simplify. exact Hlo.
  - apply Qle_shift_div_r; [reflexivity|].
    apply (Qplus_le_l _ _ 1%Q). ring_simplify. exact Hhi.
Qed.

(** The normalisation maps ratings of [1, 5] into [0, 1], as the comment in
    the code says: when every average rating of the summary lies in [1, 5],
    every value handed to the colour map lies in [0, 1]. *)
Theorem normalized_ratings_unit_interval (K : SortKind) (G : Type)
  (summary : list (Summary (MovieRow G))) (genre : string) (decade top : Z) :
  (forall r, In r summary -> (1 <= average_rating r <= 5)%Q) ->
  forall n : Q,
    In n (normalized_ratings (Utils.generate_plots summary genre decade top))
    -> (0 <= n <= 1)%Q.
Proof.
  intros Hrange n Hn.
  change (normalized_ratings (Utils.generate_plots summary genre decade top))
    with (div_scalar
            (sub_scalar
               (col (@average_rating _)
                    (selected (Utils.generate_plots summary genre decade top)))
               (1#1)%Q) (4#1)%Q) in Hn.
  unfold div_scalar, sub_scalar, col in Hn. rewrite !map_map in Hn.
  apply in_map_iff in Hn. destruct Hn as [r [<- Hr]].
  apply unit_interval, Hrange. now apply selected_In in Hr.
Qed.

Lemma normalized_ratings_unit_interval_witness :
  (forall r, In r rated_ex -> (1 <= average_rating r <= 5)%Q)
  /\ (0 <= 3 # 4 <= 1)%Q.
Proof.
  assert (Hrange : forall r, In r rated_ex ->
                             (1 <= average_rating r <= 5)%Q).
  { intros r [<-|[<-|[<-|[]]]]; split; discriminate. }
  split; [exact Hrange|].
  apply (@normalized_ratings_unit_interval stable_kind _ rated_ex "Drama"
           1990 2 Hrange (3 # 4)%Q).
  right. now left.
Defined.


(** When no movie of the summary has a tag, the text handed to the word
    cloud is the empty string. *)
Theorem cloud_text_empty_without_tags (K : SortKind) (G : Type)
  (summary : list (Summary (MovieRow G))) (genre : string) (decade top : Z) :
  (forall r, In r summary -> tags r = []) ->
  cloud_text (Utils.generate_plots summary genre decade top) = EmptyString.
Proof.
  intros Hnotag.
  change (cloud_text (Utils.generate_plots summary genre decade top))
    with (String.concat " "
            (List.concat
               (col (@tags _)
                    (selected
                       (Utils.generate_plots summary genre decade top))))).
  assert (Hall : forall r,
             In r (selected (Utils.generate_plots summary genre decade top))
             -> tags r = [])
    by (intros r Hr; apply Hnotag; now apply selected_In in Hr).
  revert Hall.
  generalize (selected (Utils.generate_plots summary genre decade top)).
  intros sel Hall.
  assert (Hnil : List.concat (col (@tags _) sel) = []).
  { unfold col. induction sel as [|r sel IH]; [reflexivity|]. simpl.
    rewrite (Hall r (or_introl eq_refl)). simpl.
    apply IH. intros r' Hr'. apply Hall. now right. }
  now rewrite Hnil.
Qed.

Lemma cloud_text_empty_without_tags_witness :
  (forall r, In r untagged_ex -> tags r = [])
  /\ cloud_text (@Utils.generate_plots stable_kind _ untagged_ex "Drama" 1990
                                       Utils.default_top)
     = EmptyString.
Proof.
  assert (Hnotag : forall r, In r untagged_ex -> tags r = []).
  { intros r [<-|[<-|[]]]; reflexivity. }
  split; [exact Hnotag|].
  exact (@cloud_text_empty_without_tags stable_kind _ untagged_ex "Drama" 1990
           Utils.default_top Hnotag).
Defined.
